(** * DPF_CALC: rate model, lifecycle sweep and mass-balance model

    A shallow embedding of [src/dpf_model.py], in two layers.

    The exact layer.  The program computes on IEEE binary64 values; the
    main embedding idealises them as exact rationals ([Q]).  It has
    neither rounding nor overflow, so what is proved over it is proved
    of the code as long as the quantities named in a statement stay
    finite; the statements that need it say so in their hypotheses.
    Two things of the Python run time are kept, because the control
    flow of the program depends on them:

    - a value is either a builtin [float] or a [numpy.float64] scalar
      ([np.clip] and the elements of [np.arange] are numpy scalars, and
      an arithmetic operation with a numpy operand gives a numpy
      scalar);
    - [x / 0.0] raises [ZeroDivisionError] when [x] is a builtin float,
      but is a non-finite numpy scalar (inf or nan, with a warning and
      no exception) when [x] is a [numpy.float64].

    The machine layer.  Module [Machine] is [predict_dpf_state] once
    more, on binary64 numbers themselves (the Standard Library's
    [SpecFloat], with 53 bits of precision): signed zeros, overflow to
    infinity and nan are what they are in the code.  The statements
    about zeros and non-finite values are proved there. *)

From Stdlib Require Import QArith Qminmax Qround ZArith List String Bool Lia Lqa.
From Stdlib Require Import PrimFloat SpecFloat.
From Stdlib Require FloatOps.
Import ListNotations.
Local Open Scope Q_scope.

(** ** Run-time values and exceptions *)

Inductive num : Type :=
| PyFloat (q : Q)      (* builtin float *)
| NpFloat (q : Q)      (* numpy.float64, finite *)
| NpNonFinite.         (* numpy.float64: inf, -inf or nan *)

Inductive exn : Type :=
| ZeroDivisionError.   (* division by zero, of builtin numbers *)

Inductive result (A : Type) : Type :=
| Ok (a : A)
| Raise (e : exn).

Arguments Ok {A} a.
Arguments Raise {A} e.

Definition bind {A B : Type} (c : result A) (k : A -> result B) : result B :=
  match c with
  | Ok a => k a
  | Raise e => Raise e
  end.

Declare Scope result_scope.
Delimit Scope result_scope with result.
Notation "x <- c ;; k" := (bind c (fun x => k))
  (at level 61, c at next level, right associativity) : result_scope.
Local Open Scope result_scope.

(** The rational value of a finite number. *)
Definition num_value (a : num) : option Q :=
  match a with
  | PyFloat q | NpFloat q => Some q
  | NpNonFinite => None
  end.

(** Binary arithmetic: builtin only when both operands are builtin; a
    non-finite operand of [+], [-] or [*] gives a non-finite result. *)
Definition num_lift2 (f : Q -> Q -> Q) (a b : num) : num :=
  match a, b with
  | PyFloat x, PyFloat y => PyFloat (f x y)
  | PyFloat x, NpFloat y => NpFloat (f x y)
  | NpFloat x, PyFloat y => NpFloat (f x y)
  | NpFloat x, NpFloat y => NpFloat (f x y)
  | _, _ => NpNonFinite
  end.

Definition num_add : num -> num -> num := num_lift2 Qplus.
Definition num_mul : num -> num -> num := num_lift2 Qmult.

Declare Scope num_scope.
Delimit Scope num_scope with num.
Bind Scope num_scope with num.
Infix "+" := num_add : num_scope.
Infix "*" := num_mul : num_scope.

(** [x / d] on builtin floats. *)
Definition py_div (x d : Q) : result Q :=
  if Qeq_bool d 0 then Raise ZeroDivisionError else Ok (x / d).

(** [a / d] where the divisor [d] is a builtin float (every divisor of
    the program is a literal or a parameter). *)
Definition num_div (a : num) (d : Q) : result num :=
  match a with
  | PyFloat x => if Qeq_bool d 0 then Raise ZeroDivisionError else Ok (PyFloat (x / d))
  | NpFloat x => if Qeq_bool d 0 then Ok NpNonFinite else Ok (NpFloat (x / d))
  | NpNonFinite => Ok NpNonFinite
  end.

(** The builtin [max(a, b)]: [b] when [b > a], otherwise [a]. *)
Definition py_max (a b : Q) : Q :=
  if Qlt_le_dec a b then b else a.

(** [np.clip(x, lo, hi)], i.e. [minimum(maximum(x, lo), hi)]; the result
    is a numpy scalar. *)
Definition np_clip (x lo hi : Q) : num :=
  NpFloat (Qmin (Qmax x lo) hi).

(** [np.arange(start, stop, step)]: [ceil((stop - start) / step)]
    elements [start + i * step].  The length is the quotient of the
    builtin numbers [stop - start] and [step]: a zero step raises
    [ZeroDivisionError].  The quotient is exact here; numpy rounds the
    sum and the quotient to binary64 before taking the ceiling, which
    agrees where both are exact, as for the whole numbers of
    kilometres of the examples (a step such as 0.1 can give one row
    more).  The limits of numpy on the length of an array are not
    modelled. *)
Definition np_arange (start stop step : Q) : result (list num) :=
  if Qeq_bool step 0 then Raise ZeroDivisionError
  else
    let n := Z.to_nat (Qceiling ((stop - start) / step)) in
    Ok (map (fun i => NpFloat (start + inject_Z (Z.of_nat i) * step)) (seq 0 n)).

(** ** Dictionaries (insertion ordered, as Python's) *)

Definition dict (V : Type) : Type := list (string * V).

Fixpoint dict_get {V : Type} (k : string) (d : dict V) : option V :=
  match d with
  | [] => None
  | (k', v) :: d' => if String.eqb k k' then Some v else dict_get k d'
  end.

(** [d[k] = v]: overwrite in place, or append a new key. *)
Fixpoint dict_set {V : Type} (k : string) (v : V) (d : dict V) : dict V :=
  match d with
  | [] => [(k, v)]
  | (k', v') :: d' =>
      if String.eqb k k' then (k, v) :: d' else (k', v') :: dict_set k v d'
  end.

(** [{**d, k1: v1, ..., kn: vn}] *)
Definition dict_update {V : Type} (d : dict V) (kvs : list (string * V)) : dict V :=
  fold_left (fun acc kv => dict_set (fst kv) (snd kv) acc) kvs d.

Definition dict_keys {V : Type} (d : dict V) : list string := map fst d.

(** ** Data model *)

Module DPFInputs.
Record t : Type := mk {
  mileage_km : num;
  avg_speed_kmh : Q;
  city_ratio : Q;
  oil_ash_content_pct : Q;
  fuel_sulfur_ppm : Q;
  regen_interval_km : Q
}.
End DPFInputs.

Module DPFParams.
Record t : Type := mk {
  dpf_capacity_units : Q;
  base_soot_rate_per_1000km : Q;
  ash_factor_per_pct_per_1000km : Q;
  sulfur_factor_per_1000ppm : Q;
  low_speed_threshold_kmh : Q;
  low_speed_sensitivity : Q;
  city_sensitivity : Q
}.

(** [DPFParams()] *)
Definition default : t :=
  {| dpf_capacity_units := 100;
     base_soot_rate_per_1000km := 1;
     ash_factor_per_pct_per_1000km := 1 # 10;
     sulfur_factor_per_1000ppm := 1;
     low_speed_threshold_kmh := 60;
     low_speed_sensitivity := 1;
     city_sensitivity := 3 # 2 |}.
End DPFParams.

Module DPFState.
Record t : Type := mk {
  soot_load : num;
  ash_load : num;
  total_ratio : num;
  soot_ratio : num;
  ash_ratio : num
}.
End DPFState.

Import DPFInputs DPFParams DPFState.

(** ** Rate model: [predict_dpf_state] *)

Section RateModel.
Variable inputs : DPFInputs.t.
Variable params : DPFParams.t.

Definition km_thousands : result num :=
  num_div (mileage_km inputs) 1000.

Definition soot_factor_city : num :=
  (PyFloat 1 + PyFloat (city_sensitivity params) * np_clip (city_ratio inputs) 0 1)%num.

Definition low_speed_delta : Q :=
  py_max 0 (low_speed_threshold_kmh params - avg_speed_kmh inputs).

Definition speed_factor : result Q :=
  q <- py_div low_speed_delta (low_speed_threshold_kmh params) ;;
  Ok (1 + low_speed_sensitivity params * q).

Definition sulfur_factor : result Q :=
  q <- py_div (fuel_sulfur_ppm inputs) 1000 ;;
  Ok (1 + sulfur_factor_per_1000ppm params * q).

Definition soot_rate : result num :=
  sp <- speed_factor ;;
  su <- sulfur_factor ;;
  Ok (PyFloat (base_soot_rate_per_1000km params) * soot_factor_city
      * PyFloat sp * PyFloat su)%num.

Definition ash_rate : Q :=
  ash_factor_per_pct_per_1000km params * oil_ash_content_pct inputs.

Definition predict_dpf_state : result DPFState.t :=
  km <- km_thousands ;;
  sr <- soot_rate ;;
  let soot_load := (sr * km)%num in
  let ash_load := (PyFloat ash_rate * km)%num in
  soot_ratio <- num_div soot_load (dpf_capacity_units params) ;;
  ash_ratio <- num_div ash_load (dpf_capacity_units params) ;;
  let total_ratio := (soot_ratio + ash_ratio)%num in
  Ok {| soot_load := soot_load;
        ash_load := ash_load;
        total_ratio := total_ratio;
        soot_ratio := soot_ratio;
        ash_ratio := ash_ratio |}.
End RateModel.

(** ** Lifecycle sweep: [simulate_vehicle_lifecycle] *)

(** [dataclasses.asdict(inp)] *)
Definition asdict (inp : DPFInputs.t) : dict num :=
  [ ("mileage_km"%string, mileage_km inp);
    ("avg_speed_kmh"%string, PyFloat (avg_speed_kmh inp));
    ("city_ratio"%string, PyFloat (city_ratio inp));
    ("oil_ash_content_pct"%string, PyFloat (oil_ash_content_pct inp));
    ("fuel_sulfur_ppm"%string, PyFloat (fuel_sulfur_ppm inp));
    ("regen_interval_km"%string, PyFloat (regen_interval_km inp)) ].

(** The body of the loop, for one mileage [m]. *)
Definition lifecycle_row (base_inputs : DPFInputs.t) (params : DPFParams.t)
    (m : num) : result (dict num) :=
  let inp :=
    {| mileage_km := m;
       avg_speed_kmh := avg_speed_kmh base_inputs;
       city_ratio := city_ratio base_inputs;
       oil_ash_content_pct := oil_ash_content_pct base_inputs;
       fuel_sulfur_ppm := fuel_sulfur_ppm base_inputs;
       regen_interval_km := regen_interval_km base_inputs |} in
  state <- predict_dpf_state inp params ;;
  Ok (dict_update (asdict inp)
        [ ("soot_load"%string, soot_load state);
          ("ash_load"%string, ash_load state);
          ("total_ratio"%string, total_ratio state);
          ("soot_ratio"%string, soot_ratio state);
          ("ash_ratio"%string, ash_ratio state) ]).

(** [for x in xs: records.append(f(x))], stopping at the first exception. *)
Fixpoint for_each {A B : Type} (f : A -> result B) (xs : list A) : result (list B) :=
  match xs with
  | [] => Ok []
  | x :: xs' =>
      r <- f x ;;
      rs <- for_each f xs' ;;
      Ok (r :: rs)
  end.

(** The data frame is the list of its records, in order. *)
Definition simulate_vehicle_lifecycle (base_inputs : DPFInputs.t)
    (max_mileage_km step_km : Q) (params : DPFParams.t) : result (list (dict num)) :=
  mileages <- np_arange 0 (max_mileage_km + step_km) step_km ;;
  for_each (lifecycle_row base_inputs params) mileages.

(** ** Mass-balance model *)

Module OilSpec.
Record t : Type := mk {
  name : string;
  sulfated_ash_pct : Q;
  density_kg_per_l : Q
}.
End OilSpec.

Module FuelSpec.
Record t : Type := mk {
  name : string;
  sulfur_ppm : Q;
  density_kg_per_l : Q
}.
End FuelSpec.

Module UsageProfile.
Record t : Type := mk {
  mileage_km : Q;
  oil_consumption_l_per_1000km : Q;
  fuel_consumption_l_per_100km : Q
}.
End UsageProfile.

(** The locals of [calc_oil_ash_mass_g]. *)
Definition oil_liters (profile : UsageProfile.t) : result Q :=
  k <- py_div (UsageProfile.mileage_km profile) 1000 ;;
  Ok (k * UsageProfile.oil_consumption_l_per_1000km profile).

Definition oil_mass_kg (profile : UsageProfile.t) (oil : OilSpec.t) : result Q :=
  oil_liters <- oil_liters profile ;;
  Ok (oil_liters * OilSpec.density_kg_per_l oil).

Definition calc_oil_ash_mass_g (profile : UsageProfile.t) (oil : OilSpec.t) : result Q :=
  oil_mass_kg <- oil_mass_kg profile oil ;;
  pct <- py_div (OilSpec.sulfated_ash_pct oil) 100 ;;
  let ash_mass_kg := oil_mass_kg * pct in
  Ok (ash_mass_kg * 1000).

Definition calc_fuel_ash_mass_g (profile : UsageProfile.t) (fuel : FuelSpec.t)
    (sulfur_to_ash_factor : Q) : result Q :=
  h <- py_div (UsageProfile.mileage_km profile) 100 ;;
  let fuel_liters := h * UsageProfile.fuel_consumption_l_per_100km profile in
  let fuel_mass_kg := fuel_liters * FuelSpec.density_kg_per_l fuel in
  let sulfur_mass_kg := fuel_mass_kg * (FuelSpec.sulfur_ppm fuel * (1 # 1000000)) in
  let ash_mass_kg := sulfur_mass_kg * sulfur_to_ash_factor in
  Ok (ash_mass_kg * 1000).

Definition calc_dpf_ash_fill (profile : UsageProfile.t) (oil : OilSpec.t)
    (fuel : FuelSpec.t) (dpf_capacity_ash_g sulfur_to_ash_factor : Q) : result (dict Q) :=
  oil_ash_g <- calc_oil_ash_mass_g profile oil ;;
  fuel_ash_g <- calc_fuel_ash_mass_g profile fuel sulfur_to_ash_factor ;;
  let total_ash_g := oil_ash_g + fuel_ash_g in
  fill_ratio <- py_div total_ash_g dpf_capacity_ash_g ;;
  let fill_percent := fill_ratio * 100 in
  Ok [ ("oil_ash_g"%string, oil_ash_g);
       ("fuel_ash_g"%string, fuel_ash_g);
       ("total_ash_g"%string, total_ash_g);
       ("dpf_capacity_ash_g"%string, dpf_capacity_ash_g);
       ("fill_ratio"%string, fill_ratio);
       ("fill_percent"%string, fill_percent) ].

(** The default arguments of the signatures. *)
Definition default_max_mileage_km : Q := 300000.
Definition default_step_km : Q := 5000.
Definition default_dpf_capacity_ash_g : Q := 120.
Definition default_sulfur_to_ash_factor : Q := 3.

(** ** Reference catalogs: [load_oils_csv], [load_fuels_csv]

    The file system and [pd.read_csv] are the environment: [read_csv]
    gives, for a file name under [DATA_DIR], the rows of the parsed
    frame in order, or [None] when pandas raises.  A frame is taken with
    its four columns present, text in the identifier and name columns
    and numbers in the other two, so that [str(...)] and [float(...)]
    convert nothing. *)

Module OilRow.
Record t : Type := mk {
  oil_id : string;
  product_name : string;
  sulfated_ash_pct : Q;
  density_kg_per_l : Q
}.
End OilRow.

Module FuelRow.
Record t : Type := mk {
  fuel_id : string;
  name : string;
  sulfur_ppm : Q;
  density_kg_per_l : Q
}.
End FuelRow.

(** [OilSpec(name=str(row["product_name"]), ...)] *)
Definition oil_spec_of_row (row : OilRow.t) : OilSpec.t :=
  {| OilSpec.name := OilRow.product_name row;
     OilSpec.sulfated_ash_pct := OilRow.sulfated_ash_pct row;
     OilSpec.density_kg_per_l := OilRow.density_kg_per_l row |}.

(** [FuelSpec(name=str(row["name"]), ...)] *)
Definition fuel_spec_of_row (row : FuelRow.t) : FuelSpec.t :=
  {| FuelSpec.name := FuelRow.name row;
     FuelSpec.sulfur_ppm := FuelRow.sulfur_ppm row;
     FuelSpec.density_kg_per_l := FuelRow.density_kg_per_l row |}.

Section Catalogs.
Variable read_oils_csv : string -> option (list OilRow.t).
Variable read_fuels_csv : string -> option (list FuelRow.t).

Definition load_oils_csv (filename : string) : option (dict OilSpec.t) :=
  match read_oils_csv filename with
  | None => None
  | Some df =>
      Some (fold_left
              (fun oils row => dict_set (OilRow.oil_id row) (oil_spec_of_row row) oils)
              df [])
  end.

Definition load_fuels_csv (filename : string) : option (dict FuelSpec.t) :=
  match read_fuels_csv filename with
  | None => None
  | Some df =>
      Some (fold_left
              (fun fuels row => dict_set (FuelRow.fuel_id row) (fuel_spec_of_row row) fuels)
              df [])
  end.
End Catalogs.

(** ** The oil ash mass on binary64 numbers

    The same arithmetic as [calc_oil_ash_mass_g], on the machine
    numbers of the program (no division by zero occurs: the divisors are
    the literals 1000.0 and 100.0). *)

Module Binary64.
Definition oil_liters (mileage_km oil_consumption_l_per_1000km : float) : float :=
  PrimFloat.mul (PrimFloat.div mileage_km 1000%float) oil_consumption_l_per_1000km.

Definition oil_mass_kg (mileage_km oil_consumption_l_per_1000km density_kg_per_l : float)
    : float :=
  PrimFloat.mul (oil_liters mileage_km oil_consumption_l_per_1000km) density_kg_per_l.

Definition calc_oil_ash_mass_g
    (mileage_km oil_consumption_l_per_1000km sulfated_ash_pct density_kg_per_l : float)
    : float :=
  let oil_mass_kg := oil_mass_kg mileage_km oil_consumption_l_per_1000km density_kg_per_l in
  let ash_mass_kg := PrimFloat.mul oil_mass_kg (PrimFloat.div sulfated_ash_pct 100%float) in
  PrimFloat.mul ash_mass_kg 1000%float.
End Binary64.

(** ** The rate model on binary64 numbers

    [predict_dpf_state] again, line for line, on IEEE 754 binary64
    numbers with round to nearest even: what builtin floats and
    [numpy.float64] scalars compute.  Overflow gives an infinity and
    raises nothing; only the division of a builtin float by zero
    raises. *)

#[local] Set Warnings "-inexact-float".

Module Machine.
Definition add : spec_float -> spec_float -> spec_float := SFadd FloatOps.prec FloatOps.emax.
Definition sub : spec_float -> spec_float -> spec_float := SFsub FloatOps.prec FloatOps.emax.
Definition mul : spec_float -> spec_float -> spec_float := SFmul FloatOps.prec FloatOps.emax.
Definition div : spec_float -> spec_float -> spec_float := SFdiv FloatOps.prec FloatOps.emax.

(** The literals of the source, and of the examples. *)
Definition literal_0 : spec_float := S754_zero false.
Definition literal_1 : spec_float := Eval vm_compute in FloatOps.Prim2SF 1%float.
Definition literal_1000 : spec_float := Eval vm_compute in FloatOps.Prim2SF 1000%float.
Definition literal_100 : spec_float := Eval vm_compute in FloatOps.Prim2SF 100%float.
Definition literal_60 : spec_float := Eval vm_compute in FloatOps.Prim2SF 60%float.
Definition literal_0_1 : spec_float := Eval vm_compute in FloatOps.Prim2SF 0.1%float.
Definition literal_1_5 : spec_float := Eval vm_compute in FloatOps.Prim2SF 1.5%float.
Definition literal_0_5 : spec_float := Eval vm_compute in FloatOps.Prim2SF 0.5%float.
Definition literal_10 : spec_float := Eval vm_compute in FloatOps.Prim2SF 10%float.
Definition literal_40 : spec_float := Eval vm_compute in FloatOps.Prim2SF 40%float.
Definition literal_400 : spec_float := Eval vm_compute in FloatOps.Prim2SF 400%float.
Definition literal_10000 : spec_float := Eval vm_compute in FloatOps.Prim2SF 10000%float.
Definition literal_1e308 : spec_float := Eval vm_compute in FloatOps.Prim2SF 1e308%float.
Definition literal_minus_1e308 : spec_float :=
  Eval vm_compute in FloatOps.Prim2SF (-1e308)%float.

(** [x == 0.0] (true of both zeros, false of nan) *)
Definition is_zero (x : spec_float) : bool := SFeqb x literal_0.

Definition is_nan (x : spec_float) : bool :=
  match x with
  | S754_nan => true
  | _ => false
  end.

(** [math.isfinite(x)] *)
Definition is_finite (x : spec_float) : bool :=
  match x with
  | S754_zero _ | S754_finite _ _ _ => true
  | _ => false
  end.

Inductive value : Type :=
| Builtin (x : spec_float)    (* builtin float *)
| Numpy (x : spec_float).     (* numpy.float64 *)

Definition float_of (v : value) : spec_float :=
  match v with
  | Builtin x | Numpy x => x
  end.

(** Binary arithmetic: builtin only when both operands are builtin. *)
Definition lift2 (f : spec_float -> spec_float -> spec_float) (a b : value) : value :=
  match a, b with
  | Builtin x, Builtin y => Builtin (f x y)
  | _, _ => Numpy (f (float_of a) (float_of b))
  end.

(** [x / d] on builtin floats. *)
Definition py_div (x d : spec_float) : result spec_float :=
  if is_zero d then Raise ZeroDivisionError else Ok (div x d).

(** [a / d] where the divisor is a builtin float: a numpy dividend
    divides as IEEE 754 says, by zero too. *)
Definition value_div (a : value) (d : spec_float) : result value :=
  match a with
  | Builtin x => if is_zero d then Raise ZeroDivisionError else Ok (Builtin (div x d))
  | Numpy x => Ok (Numpy (div x d))
  end.

(** The builtin [max(a, b)]: [b] when [b > a], otherwise [a]. *)
Definition py_max (a b : spec_float) : spec_float :=
  if SFltb a b then b else a.

(** [np.clip(x, lo, hi)]: nan stays nan, otherwise the larger of [x] and
    [lo], then the smaller of that and [hi]. *)
Definition np_clip (x lo hi : spec_float) : value :=
  Numpy (if is_nan x then x
         else
           let y := if SFltb lo x then x else lo in
           if SFltb y hi then y else hi).

Record DPFInputs : Type := {
  mileage_km : value;
  avg_speed_kmh : spec_float;
  city_ratio : spec_float;
  oil_ash_content_pct : spec_float;
  fuel_sulfur_ppm : spec_float;
  regen_interval_km : spec_float
}.

Record DPFParams : Type := {
  dpf_capacity_units : spec_float;
  base_soot_rate_per_1000km : spec_float;
  ash_factor_per_pct_per_1000km : spec_float;
  sulfur_factor_per_1000ppm : spec_float;
  low_speed_threshold_kmh : spec_float;
  low_speed_sensitivity : spec_float;
  city_sensitivity : spec_float
}.

Record DPFState : Type := {
  soot_load : value;
  ash_load : value;
  total_ratio : value;
  soot_ratio : value;
  ash_ratio : value
}.

(** [DPFParams()] *)
Definition default_params : DPFParams :=
  {| dpf_capacity_units := literal_100;
     base_soot_rate_per_1000km := literal_1;
     ash_factor_per_pct_per_1000km := literal_0_1;
     sulfur_factor_per_1000ppm := literal_1;
     low_speed_threshold_kmh := literal_60;
     low_speed_sensitivity := literal_1;
     city_sensitivity := literal_1_5 |}.

Section RateModel.
Variable inputs : DPFInputs.
Variable params : DPFParams.

Definition km_thousands : result value :=
  value_div (mileage_km inputs) literal_1000.

Definition soot_factor_city : value :=
  lift2 add (Builtin literal_1)
    (lift2 mul (Builtin (city_sensitivity params))
       (np_clip (city_ratio inputs) literal_0 literal_1)).

Definition low_speed_delta : spec_float :=
  py_max literal_0 (sub (low_speed_threshold_kmh params) (avg_speed_kmh inputs)).

Definition speed_factor : result spec_float :=
  q <- py_div low_speed_delta (low_speed_threshold_kmh params) ;;
  Ok (add literal_1 (mul (low_speed_sensitivity params) q)).

Definition sulfur_factor : result spec_float :=
  q <- py_div (fuel_sulfur_ppm inputs) literal_1000 ;;
  Ok (add literal_1 (mul (sulfur_factor_per_1000ppm params) q)).

Definition soot_rate : result value :=
  sp <- speed_factor ;;
  su <- sulfur_factor ;;
  Ok (lift2 mul
        (lift2 mul
           (lift2 mul (Builtin (base_soot_rate_per_1000km params)) soot_factor_city)
           (Builtin sp))
        (Builtin su)).

Definition ash_rate : spec_float :=
  mul (ash_factor_per_pct_per_1000km params) (oil_ash_content_pct inputs).

Definition predict_dpf_state : result DPFState :=
  km <- km_thousands ;;
  sr <- soot_rate ;;
  let soot_load := lift2 mul sr km in
  let ash_load := lift2 mul (Builtin ash_rate) km in
  soot_ratio <- value_div soot_load (dpf_capacity_units params) ;;
  ash_ratio <- value_div ash_load (dpf_capacity_units params) ;;
  let total_ratio := lift2 add soot_ratio ash_ratio in
  Ok {| soot_load := soot_load;
        ash_load := ash_load;
        total_ratio := total_ratio;
        soot_ratio := soot_ratio;
        ash_ratio := ash_ratio |}.
End RateModel.

(** A new filter, driven at 40 km/h. *)
Definition new_filter_inputs : DPFInputs :=
  {| mileage_km := Builtin literal_0;
     avg_speed_kmh := literal_40;
     city_ratio := literal_0_5;
     oil_ash_content_pct := literal_1;
     fuel_sulfur_ppm := literal_10;
     regen_interval_km := literal_400 |}.

(** A new filter, with a speed and a sulfur content of the largest
    magnitudes. *)
Definition overflowing_inputs : DPFInputs :=
  {| mileage_km := Builtin literal_0;
     avg_speed_kmh := literal_minus_1e308;
     city_ratio := literal_0_5;
     oil_ash_content_pct := literal_1;
     fuel_sulfur_ppm := literal_1e308;
     regen_interval_km := literal_400 |}.

(** 10000 km, as the sweep passes them; and a filter of capacity zero. *)
Definition sweep_inputs : DPFInputs :=
  {| mileage_km := Numpy literal_10000;
     avg_speed_kmh := literal_40;
     city_ratio := literal_0_5;
     oil_ash_content_pct := literal_1;
     fuel_sulfur_ppm := literal_10;
     regen_interval_km := literal_400 |}.

Definition params_zero_capacity : DPFParams :=
  {| dpf_capacity_units := literal_0;
     base_soot_rate_per_1000km := literal_1;
     ash_factor_per_pct_per_1000km := literal_0_1;
     sulfur_factor_per_1000ppm := literal_1;
     low_speed_threshold_kmh := literal_60;
     low_speed_sensitivity := literal_1;
     city_sensitivity := literal_1_5 |}.
End Machine.

(** ** Vocabulary of the statements *)

(** [a] is finite and its value is [q]. *)
Definition num_is (a : num) (q : Q) : Prop :=
  match num_value a with
  | Some x => x == q
  | None => False
  end.



(** Same run-time type and same value. *)
Definition num_equiv (a b : num) : Prop :=
  match a, b with
  | PyFloat x, PyFloat y => x == y
  | NpFloat x, NpFloat y => x == y
  | NpNonFinite, NpNonFinite => True
  | _, _ => False
  end.

Definition state_equiv (s1 s2 : DPFState.t) : Prop :=
  num_equiv (soot_load s1) (soot_load s2) /\
  num_equiv (ash_load s1) (ash_load s2) /\
  num_equiv (total_ratio s1) (total_ratio s2) /\
  num_equiv (soot_ratio s1) (soot_ratio s2) /\
  num_equiv (ash_ratio s1) (ash_ratio s2).

(** Same outcome: the same exception, or equivalent values. *)
Definition result_equiv {A : Type} (R : A -> A -> Prop) (r1 r2 : result A) : Prop :=
  match r1, r2 with
  | Ok a1, Ok a2 => R a1 a2
  | Raise e1, Raise e2 => e1 = e2
  | _, _ => False
  end.

(** Records that differ at most in one field. *)
Definition with_mileage_km (m : num) (i : DPFInputs.t) : DPFInputs.t :=
  {| mileage_km := m;
     avg_speed_kmh := avg_speed_kmh i;
     city_ratio := city_ratio i;
     oil_ash_content_pct := oil_ash_content_pct i;
     fuel_sulfur_ppm := fuel_sulfur_ppm i;
     regen_interval_km := regen_interval_km i |}.

Definition with_avg_speed_kmh (s : Q) (i : DPFInputs.t) : DPFInputs.t :=
  {| mileage_km := mileage_km i;
     avg_speed_kmh := s;
     city_ratio := city_ratio i;
     oil_ash_content_pct := oil_ash_content_pct i;
     fuel_sulfur_ppm := fuel_sulfur_ppm i;
     regen_interval_km := regen_interval_km i |}.

Definition with_city_ratio (c : Q) (i : DPFInputs.t) : DPFInputs.t :=
  {| mileage_km := mileage_km i;
     avg_speed_kmh := avg_speed_kmh i;
     city_ratio := c;
     oil_ash_content_pct := oil_ash_content_pct i;
     fuel_sulfur_ppm := fuel_sulfur_ppm i;
     regen_interval_km := regen_interval_km i |}.

Definition with_regen_interval_km (r : Q) (i : DPFInputs.t) : DPFInputs.t :=
  {| mileage_km := mileage_km i;
     avg_speed_kmh := avg_speed_kmh i;
     city_ratio := city_ratio i;
     oil_ash_content_pct := oil_ash_content_pct i;
     fuel_sulfur_ppm := fuel_sulfur_ppm i;
     regen_interval_km := r |}.

(** The loads in closed form, for a mileage of value [m]. *)
Definition soot_rate_value (i : DPFInputs.t) (p : DPFParams.t) : Q :=
  base_soot_rate_per_1000km p
  * (1 + city_sensitivity p * Qmin (Qmax (city_ratio i) 0) 1)
  * (1 + low_speed_sensitivity p * (low_speed_delta i p / low_speed_threshold_kmh p))
  * (1 + sulfur_factor_per_1000ppm p * (fuel_sulfur_ppm i / 1000)).

Definition soot_load_value (i : DPFInputs.t) (p : DPFParams.t) (m : Q) : Q :=
  soot_rate_value i p * (m / 1000).

Definition ash_load_value (i : DPFInputs.t) (p : DPFParams.t) (m : Q) : Q :=
  ash_rate i p * (m / 1000).

(** The mileages of the sweep: the elements of
    [np.arange(0, max_mileage_km + step_km, step_km)]. *)
Definition sweep_mileages (max_mileage_km step_km : Q) : list num :=
  map (fun k => NpFloat (0 + inject_Z (Z.of_nat k) * step_km))
      (seq 0 (Z.to_nat (Qceiling ((max_mileage_km + step_km - 0) / step_km)))).

(** [row] is the record of the sweep for mileage [m]: the input fields
    with the mileage overridden, then the fields of the state that a
    direct call of [predict_dpf_state] returns for that input. *)
Definition row_matches (base : DPFInputs.t) (p : DPFParams.t)
    (m : num) (row : dict num) : Prop :=
  exists st,
    predict_dpf_state (with_mileage_km m base) p = Ok st
    /\ dict_keys row
       = ["mileage_km"; "avg_speed_kmh"; "city_ratio"; "oil_ash_content_pct";
          "fuel_sulfur_ppm"; "regen_interval_km"; "soot_load"; "ash_load";
          "total_ratio"; "soot_ratio"; "ash_ratio"]%string
    /\ dict_get "mileage_km" row = Some m
    /\ dict_get "avg_speed_kmh" row = Some (PyFloat (avg_speed_kmh base))
    /\ dict_get "city_ratio" row = Some (PyFloat (city_ratio base))
    /\ dict_get "oil_ash_content_pct" row = Some (PyFloat (oil_ash_content_pct base))
    /\ dict_get "fuel_sulfur_ppm" row = Some (PyFloat (fuel_sulfur_ppm base))
    /\ dict_get "regen_interval_km" row = Some (PyFloat (regen_interval_km base))
    /\ dict_get "soot_load" row = Some (soot_load st)
    /\ dict_get "ash_load" row = Some (ash_load st)
    /\ dict_get "total_ratio" row = Some (total_ratio st)
    /\ dict_get "soot_ratio" row = Some (soot_ratio st)
    /\ dict_get "ash_ratio" row = Some (ash_ratio st).

(** ** Sample data *)

Definition sample_inputs : DPFInputs.t :=
  {| mileage_km := PyFloat 10000;
     avg_speed_kmh := 40;
     city_ratio := 1 # 2;
     oil_ash_content_pct := 1;
     fuel_sulfur_ppm := 10;
     regen_interval_km := 400 |}.



Definition params_negative_capacity : DPFParams.t :=
  {| dpf_capacity_units := - (100);
     base_soot_rate_per_1000km := 1;
     ash_factor_per_pct_per_1000km := 1 # 10;
     sulfur_factor_per_1000ppm := 1;
     low_speed_threshold_kmh := 60;
     low_speed_sensitivity := 1;
     city_sensitivity := 3 # 2 |}.

(** The profile and the oil of the worked example. *)
Definition sample_profile : UsageProfile.t :=
  {| UsageProfile.mileage_km := 10000;
     UsageProfile.oil_consumption_l_per_1000km := 1 # 2;
     UsageProfile.fuel_consumption_l_per_100km := 6 |}.

Definition sample_oil : OilSpec.t :=
  {| OilSpec.name := "5W-30";
     OilSpec.sulfated_ash_pct := 1;
     OilSpec.density_kg_per_l := 85 # 100 |}.

Definition sample_fuel : FuelSpec.t :=
  {| FuelSpec.name := "B7";
     FuelSpec.sulfur_ppm := 10;
     FuelSpec.density_kg_per_l := 83 # 100 |}.

(** * Properties *)

(** ** Arithmetic of the run-time model *)

Lemma Qeq_bool_zero_false (d : Q) : ~ d == 0 -> Qeq_bool d 0 = false.
Proof.
  intros H. destruct (Qeq_bool d 0) eqn:E; [|reflexivity].
  apply Qeq_bool_eq in E. contradiction.
Qed.

Lemma Qeq_bool_zero_true (d : Q) : d == 0 -> Qeq_bool d 0 = true.
Proof. apply Qeq_eq_bool. Qed.

Lemma py_div_ok (x d : Q) : ~ d == 0 -> py_div x d = Ok (x / d).
Proof. intros H. unfold py_div. now rewrite Qeq_bool_zero_false. Qed.

Lemma py_div_raises (x d : Q) : d == 0 -> py_div x d = Raise ZeroDivisionError.
Proof. intros H. unfold py_div. now rewrite Qeq_bool_zero_true. Qed.

Lemma py_div_literal_1000 (x : Q) : py_div x 1000 = Ok (x / 1000).
Proof. reflexivity. Qed.

Lemma py_div_literal_100 (x : Q) : py_div x 100 = Ok (x / 100).
Proof. reflexivity. Qed.

Lemma py_max_Qmax (a b : Q) : py_max a b == Qmax a b.
Proof.
  unfold py_max. destruct (Qlt_le_dec a b) as [H | H].
  - symmetry. apply Q.max_r. now apply Qlt_le_weak.
  - symmetry. now apply Q.max_l.
Qed.

Lemma py_max_0_nonneg (b : Q) : 0 <= py_max 0 b.
Proof.
  unfold py_max. destruct (Qlt_le_dec 0 b) as [H | H].
  - now apply Qlt_le_weak.
  - apply Qle_refl.
Qed.

Lemma py_max_0_pos (b : Q) : 0 < b -> py_max 0 b = b.
Proof.
  intros H. unfold py_max. destruct (Qlt_le_dec 0 b) as [_ | H'].
  - reflexivity.
  - exfalso. apply (Qlt_irrefl 0). now apply Qlt_le_trans with b.
Qed.

Lemma py_max_0_nonpos (b : Q) : b <= 0 -> py_max 0 b = 0.
Proof.
  intros H. unfold py_max. destruct (Qlt_le_dec 0 b) as [H' | _].
  - exfalso. apply (Qlt_irrefl 0). now apply Qlt_le_trans with b.
  - reflexivity.
Qed.

Lemma clip_unit_range (x : Q) : 0 <= Qmin (Qmax x 0) 1 /\ Qmin (Qmax x 0) 1 <= 1.
Proof.
  split.
  - apply Q.min_glb; [apply Q.le_max_r | discriminate].
  - apply Q.le_min_r.
Qed.

(** Clamping twice is clamping once: [np.clip] of the clamped ratio. *)
Lemma clip_of_clamped (c : Q) :
  Qmin (Qmax (Qmin 1 (Qmax 0 c)) 0) 1 == Qmin (Qmax c 0) 1.
Proof.
  rewrite (Q.max_comm 0 c), (Q.min_comm 1 (Qmax c 0)).
  destruct (clip_unit_range c) as [H0 H1].
  rewrite (Q.max_l (Qmin (Qmax c 0) 1) 0) by exact H0.
  rewrite Q.min_l by exact H1. reflexivity.
Qed.

Lemma num_is_PyFloat (x q : Q) : num_is (PyFloat x) q <-> x == q.
Proof. reflexivity. Qed.

Lemma num_is_NpFloat (x q : Q) : num_is (NpFloat x) q <-> x == q.
Proof. reflexivity. Qed.

Lemma num_equiv_refl (a : num) : num_equiv a a.
Proof. destruct a; simpl; auto with qarith. Qed.

Lemma num_is_mul (a b : num) (x y : Q) :
  num_is a x -> num_is b y -> num_is (a * b)%num (x * y).
Proof.
  destruct a, b; unfold num_is; simpl; try contradiction;
    intros Hx Hy; now rewrite Hx, Hy.
Qed.

Lemma num_is_add (a b : num) (x y : Q) :
  num_is a x -> num_is b y -> num_is (a + b)%num (x + y).
Proof.
  destruct a, b; unfold num_is; simpl; try contradiction;
    intros Hx Hy; now rewrite Hx, Hy.
Qed.

Lemma num_div_finite (a : num) (x d : Q) :
  num_is a x -> ~ d == 0 -> exists r, num_div a d = Ok r /\ num_is r (x / d).
Proof.
  intros Ha Hd. destruct a; unfold num_is in Ha; simpl in Ha; try contradiction;
    simpl; rewrite (Qeq_bool_zero_false d Hd); eexists; (split; [reflexivity|]);
    unfold num_is; simpl; now rewrite Ha.
Qed.

(** ** The rate model, step by step *)

Section RateModelFacts.
Variable i : DPFInputs.t.
Variable p : DPFParams.t.

Lemma soot_factor_city_eq :
  soot_factor_city i p
  = NpFloat (1 + city_sensitivity p * Qmin (Qmax (city_ratio i) 0) 1).
Proof. reflexivity. Qed.

Lemma sulfur_factor_eq :
  sulfur_factor i p
  = Ok (1 + sulfur_factor_per_1000ppm p * (fuel_sulfur_ppm i / 1000)).
Proof. reflexivity. Qed.

Lemma speed_factor_ok :
  ~ low_speed_threshold_kmh p == 0 ->
  speed_factor i p
  = Ok (1 + low_speed_sensitivity p * (low_speed_delta i p / low_speed_threshold_kmh p)).
Proof. intros H. unfold speed_factor. now rewrite py_div_ok. Qed.

Lemma speed_factor_raises :
  low_speed_threshold_kmh p == 0 -> speed_factor i p = Raise ZeroDivisionError.
Proof. intros H. unfold speed_factor. now rewrite py_div_raises. Qed.

Lemma soot_rate_ok :
  ~ low_speed_threshold_kmh p == 0 ->
  soot_rate i p = Ok (NpFloat (soot_rate_value i p)).
Proof. intros H. unfold soot_rate. now rewrite speed_factor_ok. Qed.

Lemma soot_rate_raises :
  low_speed_threshold_kmh p == 0 -> soot_rate i p = Raise ZeroDivisionError.
Proof. intros H. unfold soot_rate. now rewrite speed_factor_raises. Qed.

Lemma km_thousands_finite (m : Q) :
  num_is (mileage_km i) m ->
  exists km, km_thousands i = Ok km /\ num_is km (m / 1000).
Proof. intros H. apply num_div_finite; [exact H | discriminate]. Qed.

(** With a finite mileage and non-zero denominators the call returns,
    and every field is the closed form. *)
Lemma predict_dpf_state_finite (m : Q) :
  num_is (mileage_km i) m ->
  ~ low_speed_threshold_kmh p == 0 ->
  ~ dpf_capacity_units p == 0 ->
  exists st,
    predict_dpf_state i p = Ok st
    /\ num_is (soot_load st) (soot_load_value i p m)
    /\ num_is (ash_load st) (ash_load_value i p m)
    /\ num_is (soot_ratio st) (soot_load_value i p m / dpf_capacity_units p)
    /\ num_is (ash_ratio st) (ash_load_value i p m / dpf_capacity_units p)
    /\ num_is (total_ratio st)
         (soot_load_value i p m / dpf_capacity_units p
          + ash_load_value i p m / dpf_capacity_units p).
Proof.
  intros Hm Hthr Hcap.
  destruct (km_thousands_finite m Hm) as (km & Ekm & Hkm).
  assert (Hsl : num_is (NpFloat (soot_rate_value i p) * km)%num (soot_load_value i p m)).
  { apply num_is_mul; [apply num_is_NpFloat; reflexivity | exact Hkm]. }
  assert (Hal : num_is (PyFloat (ash_rate i p) * km)%num (ash_load_value i p m)).
  { apply num_is_mul; [apply num_is_PyFloat; reflexivity | exact Hkm]. }
  destruct (num_div_finite _ _ (dpf_capacity_units p) Hsl Hcap) as (sr & Esr & Hsr).
  destruct (num_div_finite _ _ (dpf_capacity_units p) Hal Hcap) as (ar & Ear & Har).
  unfold predict_dpf_state.
  rewrite Ekm, (soot_rate_ok Hthr). cbn [bind].
  rewrite Esr, Ear. cbn [bind].
  eexists. split; [reflexivity|]. cbn [soot_load ash_load soot_ratio ash_ratio total_ratio].
  repeat split; try assumption.
  now apply num_is_add.
Qed.

(** A zero threshold raises, whatever the mileage is. *)
Lemma predict_dpf_state_zero_threshold :
  low_speed_threshold_kmh p == 0 ->
  predict_dpf_state i p = Raise ZeroDivisionError.
Proof.
  intros H. unfold predict_dpf_state, km_thousands.
  rewrite (soot_rate_raises H).
  destruct (mileage_km i); reflexivity.
Qed.


(** With a numpy mileage a zero capacity raises nothing. *)
Lemma predict_dpf_state_numpy_mileage :
  (exists m, mileage_km i = NpFloat m) \/ mileage_km i = NpNonFinite ->
  ~ low_speed_threshold_kmh p == 0 ->
  exists st, predict_dpf_state i p = Ok st.
Proof.
  intros Hm Hthr. unfold predict_dpf_state, km_thousands.
  rewrite (soot_rate_ok Hthr).
  destruct Hm as [[m Hm] | Hm]; rewrite Hm; cbn [num_div bind];
    try change (Qeq_bool 1000 0) with false; cbn;
    destruct (Qeq_bool (dpf_capacity_units p) 0); cbn; eexists; reflexivity.
Qed.
End RateModelFacts.

(** Inputs whose clamped city ratios coincide are not told apart. *)
Lemma predict_dpf_state_city_ratio_congr (i : DPFInputs.t) (p : DPFParams.t) (c1 c2 : Q) :
  Qmin (Qmax c1 0) 1 == Qmin (Qmax c2 0) 1 ->
  result_equiv state_equiv
    (predict_dpf_state (with_city_ratio c1 i) p)
    (predict_dpf_state (with_city_ratio c2 i) p).
Proof.
  intros H.
  destruct (Qeq_dec (low_speed_threshold_kmh p) 0) as [Hthr | Hthr].
  - rewrite !predict_dpf_state_zero_threshold by exact Hthr. reflexivity.
  - assert (Hr : soot_rate_value (with_city_ratio c1 i) p
                 == soot_rate_value (with_city_ratio c2 i) p).
    { unfold soot_rate_value, low_speed_delta. cbn [with_city_ratio city_ratio
        avg_speed_kmh fuel_sulfur_ppm]. now rewrite H. }
    unfold predict_dpf_state, km_thousands.
    rewrite !soot_rate_ok by exact Hthr.
    unfold ash_rate. cbn [with_city_ratio mileage_km oil_ash_content_pct].
    destruct (mileage_km i) as [m | m |]; cbn [num_div bind];
      try change (Qeq_bool 1000 0) with false; cbn [bind num_mul num_lift2 num_div];
      destruct (Qeq_bool (dpf_capacity_units p) 0);
      cbn [bind result_equiv num_add num_lift2]; try reflexivity;
      unfold state_equiv;
      cbn [soot_load ash_load total_ratio soot_ratio ash_ratio num_equiv];
      repeat split; try rewrite Hr; reflexivity.
Qed.

(** ** The rate model on binary64 numbers *)

Section MachineFacts.
Import Machine.

Lemma is_zero_inv (x : spec_float) : is_zero x = true -> exists s, x = S754_zero s.
Proof.
  destruct x as [s | s | | s m e]; cbn; try discriminate.
  - intros _. now exists s.
  - destruct s; discriminate.
  - destruct s; discriminate.
Qed.

(** A finite number times zero is zero. *)
Lemma mul_finite_zero (x y : spec_float) :
  is_finite x = true -> is_zero y = true -> is_zero (mul x y) = true.
Proof.
  intros Hx Hy. apply is_zero_inv in Hy. destruct Hy as [s ->].
  destruct x; try discriminate; reflexivity.
Qed.

(** Zero over a number that is neither zero nor nan is zero. *)
Lemma div_zero_by_number (x d : spec_float) :
  is_zero x = true -> is_zero d = false -> is_nan d = false ->
  is_zero (div x d) = true.
Proof.
  intros Hx Hd Hn. apply is_zero_inv in Hx. destruct Hx as [s ->].
  destruct d; try discriminate; reflexivity.
Qed.

Lemma add_zero_zero (x y : spec_float) :
  is_zero x = true -> is_zero y = true -> is_zero (add x y) = true.
Proof.
  intros Hx Hy. apply is_zero_inv in Hx, Hy. destruct Hx as [s ->], Hy as [t ->].
  destruct s, t; reflexivity.
Qed.

(** Anything over zero is an infinity or nan. *)
Lemma div_by_zero_not_finite (x d : spec_float) :
  is_zero d = true -> is_finite (div x d) = false.
Proof.
  intros Hd. apply is_zero_inv in Hd. destruct Hd as [s ->].
  destruct x; reflexivity.
Qed.

Lemma add_not_finite (x y : spec_float) :
  is_finite x = false -> is_finite y = false -> is_finite (add x y) = false.
Proof.
  destruct x as [| s | |], y as [| t | |]; try discriminate; intros _ _;
    try reflexivity; destruct s, t; reflexivity.
Qed.

Lemma float_of_lift2 (f : spec_float -> spec_float -> spec_float) (a b : value) :
  float_of (lift2 f a b) = f (float_of a) (float_of b).
Proof. destruct a, b; reflexivity. Qed.

Lemma value_div_ok (a : value) (d : spec_float) :
  is_zero d = false ->
  exists v, value_div a d = Ok v /\ float_of v = div (float_of a) d.
Proof.
  intros Hd. destruct a; cbn [value_div]; rewrite ?Hd; eexists; split; reflexivity.
Qed.
End MachineFacts.

(** C2 (as the code has it).  With [mileage_km = 0], a threshold that is
    not zero and a capacity that is a number other than zero,
    [predict_dpf_state] returns a state whose [soot_load], [ash_load],
    [soot_ratio], [ash_ratio] and [total_ratio] all equal 0, provided
    the soot rate and the ash rate computed from the other fields are
    finite (they overflow for inputs of extreme magnitude). *)
Theorem predict_dpf_state_zero_mileage
    (i : Machine.DPFInputs) (p : Machine.DPFParams) (sr : Machine.value) :
  Machine.is_zero (Machine.float_of (Machine.mileage_km i)) = true ->
  Machine.is_zero (Machine.dpf_capacity_units p) = false ->
  Machine.is_nan (Machine.dpf_capacity_units p) = false ->
  Machine.is_zero (Machine.low_speed_threshold_kmh p) = false ->
  Machine.soot_rate i p = Ok sr ->
  Machine.is_finite (Machine.float_of sr) = true ->
  Machine.is_finite (Machine.ash_rate i p) = true ->
  exists st,
    Machine.predict_dpf_state i p = Ok st
    /\ Machine.is_zero (Machine.float_of (Machine.soot_load st)) = true
    /\ Machine.is_zero (Machine.float_of (Machine.ash_load st)) = true
    /\ Machine.is_zero (Machine.float_of (Machine.soot_ratio st)) = true
    /\ Machine.is_zero (Machine.float_of (Machine.ash_ratio st)) = true
    /\ Machine.is_zero (Machine.float_of (Machine.total_ratio st)) = true.
Proof.
  intros Hm Hcap Hnan Hthr Hsr Hfin Hash.
  destruct (value_div_ok (Machine.mileage_km i) Machine.literal_1000 eq_refl)
    as (km & Ekm & Hkm).
  assert (Zkm : Machine.is_zero (Machine.float_of km) = true).
  { rewrite Hkm. now apply div_zero_by_number. }
  assert (Zsl : Machine.is_zero (Machine.float_of (Machine.lift2 Machine.mul sr km)) = true).
  { rewrite float_of_lift2. now apply mul_finite_zero. }
  assert (Zal : Machine.is_zero
                  (Machine.float_of
                     (Machine.lift2 Machine.mul
                        (Machine.Builtin (Machine.ash_rate i p)) km)) = true).
  { rewrite float_of_lift2. now apply mul_finite_zero. }
  destruct (value_div_ok (Machine.lift2 Machine.mul sr km) _ Hcap) as (sq & Esq & Hsq).
  destruct (value_div_ok
              (Machine.lift2 Machine.mul (Machine.Builtin (Machine.ash_rate i p)) km)
              _ Hcap) as (aq & Eaq & Haq).
  unfold Machine.predict_dpf_state, Machine.km_thousands.
  rewrite Ekm. cbn [bind]. rewrite Hsr. cbn [bind].
  rewrite Esq. cbn [bind]. rewrite Eaq. cbn [bind].
  eexists. split; [reflexivity|].
  cbn [Machine.soot_load Machine.ash_load Machine.soot_ratio Machine.ash_ratio
       Machine.total_ratio].
  assert (Zsq : Machine.is_zero (Machine.float_of sq) = true)
    by (rewrite Hsq; now apply div_zero_by_number).
  assert (Zaq : Machine.is_zero (Machine.float_of aq) = true)
    by (rewrite Haq; now apply div_zero_by_number).
  repeat split; try assumption.
  rewrite float_of_lift2. now apply add_zero_zero.
Qed.

Lemma predict_dpf_state_zero_mileage_witness :
  exists st,
    Machine.predict_dpf_state Machine.new_filter_inputs Machine.default_params = Ok st
    /\ Machine.is_zero (Machine.float_of (Machine.soot_load st)) = true
    /\ Machine.is_zero (Machine.float_of (Machine.ash_load st)) = true
    /\ Machine.is_zero (Machine.float_of (Machine.soot_ratio st)) = true
    /\ Machine.is_zero (Machine.float_of (Machine.ash_ratio st)) = true
    /\ Machine.is_zero (Machine.float_of (Machine.total_ratio st)) = true.
Proof.
  eapply (predict_dpf_state_zero_mileage Machine.new_filter_inputs Machine.default_params);
    vm_compute; reflexivity.
Defined.

(** C2 as stated fails: with a mileage of 0, a speed of -1e308, a fuel
    sulfur of 1e308 and the default parameters the soot rate overflows
    to infinity, and infinity times 0.0 is nan: [soot_load],
    [soot_ratio] and [total_ratio] are nan, not 0. *)
Lemma zero_mileage_overflow_is_nan :
  Machine.is_zero (Machine.float_of (Machine.mileage_km Machine.overflowing_inputs)) = true
  /\ Machine.is_zero (Machine.dpf_capacity_units Machine.default_params) = false
  /\ Machine.is_zero (Machine.low_speed_threshold_kmh Machine.default_params) = false
  /\ exists st,
       Machine.predict_dpf_state Machine.overflowing_inputs Machine.default_params = Ok st
       /\ Machine.soot_load st = Machine.Numpy S754_nan
       /\ Machine.soot_ratio st = Machine.Numpy S754_nan
       /\ Machine.total_ratio st = Machine.Numpy S754_nan
       /\ Machine.is_zero (Machine.float_of (Machine.soot_load st)) = false.
Proof.
  do 3 (split; [reflexivity|]).
  eexists. split; [vm_compute; reflexivity|]. repeat split.
Qed.

(** ** Rate model: the claims *)

(** C3 (as the code has it).  [low_speed_delta] is
    [max(0, low_speed_threshold_kmh - avg_speed_kmh)], for every input.
    For a negative speed it is at least the threshold, and with a
    positive threshold it is [threshold - speed], in general not the
    threshold, so that
    [speed_factor = 1 + low_speed_sensitivity * (threshold - speed) / threshold];
    the input is not rejected: the call returns whenever the mileage is
    finite and the capacity is non-zero. *)
Theorem low_speed_delta_negative_speed (i : DPFInputs.t) (p : DPFParams.t) :
  low_speed_delta i p == Qmax 0 (low_speed_threshold_kmh p - avg_speed_kmh i)
  /\ (avg_speed_kmh i < 0 -> low_speed_threshold_kmh p <= low_speed_delta i p)
  /\ (avg_speed_kmh i < 0 ->
      0 < low_speed_threshold_kmh p ->
      low_speed_delta i p = low_speed_threshold_kmh p - avg_speed_kmh i
      /\ speed_factor i p
         = Ok (1 + low_speed_sensitivity p
                   * ((low_speed_threshold_kmh p - avg_speed_kmh i)
                      / low_speed_threshold_kmh p))
      /\ (forall m, num_is (mileage_km i) m -> ~ dpf_capacity_units p == 0 ->
          exists st, predict_dpf_state i p = Ok st)).
Proof.
  split; [apply py_max_Qmax|]. split.
  - intros Hs. rewrite (py_max_Qmax 0 (low_speed_threshold_kmh p - avg_speed_kmh i)
                        : low_speed_delta i p == _).
    destruct (Q.max_spec 0 (low_speed_threshold_kmh p - avg_speed_kmh i))
      as [[Hlt ->] | [Hle ->]]; lra.
  - intros Hs Ht.
    assert (Hpos : 0 < low_speed_threshold_kmh p - avg_speed_kmh i) by lra.
    assert (Hthr : ~ low_speed_threshold_kmh p == 0) by lra.
    assert (Hd : low_speed_delta i p = low_speed_threshold_kmh p - avg_speed_kmh i).
    { unfold low_speed_delta. now apply py_max_0_pos. }
    split; [exact Hd|].
    split.
    + rewrite (speed_factor_ok i p Hthr). now rewrite Hd.
    + intros m Hm Hcap.
      destruct (predict_dpf_state_finite i p m Hm Hthr Hcap) as (st & E & _).
      now exists st.
Qed.

(** C4.  [city_ratio] is clamped to [0, 1] before use: replacing it by
    [min(1, max(0, city_ratio))] changes nothing in the outcome, and
    [city_ratio = 2.0] gives the outcome of [city_ratio = 1.0]. *)
Theorem predict_dpf_state_city_ratio_clamped (i : DPFInputs.t) (p : DPFParams.t) :
  result_equiv state_equiv
    (predict_dpf_state i p)
    (predict_dpf_state (with_city_ratio (Qmin 1 (Qmax 0 (city_ratio i))) i) p)
  /\ result_equiv state_equiv
       (predict_dpf_state (with_city_ratio 2 i) p)
       (predict_dpf_state (with_city_ratio 1 i) p).
Proof.
  split.
  - replace i with (with_city_ratio (city_ratio i) i) at 1 by (now destruct i).
    apply predict_dpf_state_city_ratio_congr.
    symmetry. apply clip_of_clamped.
  - apply predict_dpf_state_city_ratio_congr. reflexivity.
Qed.

(** C10.  [regen_interval_km] does not interfere: two inputs that agree
    on every other field give identical outcomes of [predict_dpf_state]. *)
Theorem predict_dpf_state_ignores_regen_interval (i1 i2 : DPFInputs.t) (p : DPFParams.t) :
  mileage_km i1 = mileage_km i2 ->
  avg_speed_kmh i1 = avg_speed_kmh i2 ->
  city_ratio i1 = city_ratio i2 ->
  oil_ash_content_pct i1 = oil_ash_content_pct i2 ->
  fuel_sulfur_ppm i1 = fuel_sulfur_ppm i2 ->
  predict_dpf_state i1 p = predict_dpf_state i2 p.
Proof.
  destruct i1 as [m1 s1 c1 o1 f1 r1], i2 as [m2 s2 c2 o2 f2 r2].
  cbn [mileage_km avg_speed_kmh city_ratio oil_ash_content_pct fuel_sulfur_ppm].
  intros -> -> -> -> ->. reflexivity.
Qed.

Lemma low_speed_delta_negative_speed_witness :
  low_speed_delta (with_avg_speed_kmh (- (10)) sample_inputs) DPFParams.default = 70
  /\ low_speed_threshold_kmh DPFParams.default
     <= low_speed_delta (with_avg_speed_kmh (- (10)) sample_inputs) DPFParams.default
  /\ speed_factor (with_avg_speed_kmh (- (10)) sample_inputs) DPFParams.default
     = Ok (1 + 1 * ((60 - - (10)) / 60)).
Proof.
  destruct (low_speed_delta_negative_speed
              (with_avg_speed_kmh (- (10)) sample_inputs) DPFParams.default)
    as (_ & Hle & H).
  destruct (H eq_refl eq_refl) as (Hd & Hs & _).
  split; [exact Hd|]. split; [exact (Hle eq_refl) | exact Hs].
Defined.

(** C3 as stated fails: at -10 km/h with the default threshold of 60 the
    delta is 70, not the threshold, and the speed factor is not
    [1 + low_speed_sensitivity]. *)
Lemma low_speed_delta_is_not_threshold :
  avg_speed_kmh (with_avg_speed_kmh (- (10)) sample_inputs) < 0
  /\ ~ low_speed_delta (with_avg_speed_kmh (- (10)) sample_inputs) DPFParams.default
       == low_speed_threshold_kmh DPFParams.default
  /\ exists v,
       speed_factor (with_avg_speed_kmh (- (10)) sample_inputs) DPFParams.default = Ok v
       /\ ~ v == 1 + low_speed_sensitivity DPFParams.default.
Proof.
  split; [reflexivity|]. split; [discriminate|].
  eexists. split; [reflexivity|]. discriminate.
Qed.

Lemma predict_dpf_state_ignores_regen_interval_witness :
  predict_dpf_state sample_inputs DPFParams.default
  = predict_dpf_state (with_regen_interval_km 900 sample_inputs) DPFParams.default.
Proof.
  apply predict_dpf_state_ignores_regen_interval; reflexivity.
Defined.

(** ** Monotonicity *)




Lemma Qdiv_nonneg (x d : Q) : 0 <= x -> 0 < d -> 0 <= x / d.
Proof.
  intros Hx Hd. unfold Qdiv. apply Qmult_le_0_compat; [exact Hx|].
  apply Qinv_le_0_compat. now apply Qlt_le_weak.
Qed.

Lemma Qmult_le_compat_nonneg_l (x y z : Q) : 0 <= z -> x <= y -> z * x <= z * y.
Proof.
  intros Hz H. rewrite (Qmult_comm z x), (Qmult_comm z y).
  now apply Qmult_le_compat_r.
Qed.

(** The rate does not look at the mileage. *)
Lemma soot_rate_value_mileage (m : num) (i : DPFInputs.t) (p : DPFParams.t) :
  soot_rate_value (with_mileage_km m i) p = soot_rate_value i p.
Proof. reflexivity. Qed.

(** Non-negative inputs and calibration constants, with a positive
    threshold, give a non-negative soot rate. *)
Lemma soot_rate_value_nonneg (i : DPFInputs.t) (p : DPFParams.t) :
  0 < low_speed_threshold_kmh p ->
  0 <= base_soot_rate_per_1000km p ->
  0 <= city_sensitivity p ->
  0 <= low_speed_sensitivity p ->
  0 <= sulfur_factor_per_1000ppm p ->
  0 <= fuel_sulfur_ppm i ->
  0 <= soot_rate_value i p.
Proof.
  intros Hthr Hb Hc Hl Hs Hf. unfold soot_rate_value.
  destruct (clip_unit_range (city_ratio i)) as [Hclip _].
  pose proof (py_max_0_nonneg (low_speed_threshold_kmh p - avg_speed_kmh i)) as Hd.
  fold (low_speed_delta i p) in Hd.
  assert (H1 : 0 <= city_sensitivity p * Qmin (Qmax (city_ratio i) 0) 1)
    by now apply Qmult_le_0_compat.
  assert (H2 : 0 <= low_speed_sensitivity p
                    * (low_speed_delta i p / low_speed_threshold_kmh p)).
  { apply Qmult_le_0_compat; [exact Hl | now apply Qdiv_nonneg]. }
  assert (H3 : 0 <= sulfur_factor_per_1000ppm p * (fuel_sulfur_ppm i / 1000)).
  { apply Qmult_le_0_compat; [exact Hs | now apply Qdiv_nonneg]. }
  repeat apply Qmult_le_0_compat; try assumption; lra.
Qed.







(** ** Mass-balance model *)

Lemma calc_oil_ash_mass_g_eq (profile : UsageProfile.t) (oil : OilSpec.t) :
  calc_oil_ash_mass_g profile oil
  = Ok (UsageProfile.mileage_km profile / 1000
        * UsageProfile.oil_consumption_l_per_1000km profile
        * OilSpec.density_kg_per_l oil
        * (OilSpec.sulfated_ash_pct oil / 100)
        * 1000).
Proof. reflexivity. Qed.

Lemma calc_fuel_ash_mass_g_eq (profile : UsageProfile.t) (fuel : FuelSpec.t) (factor : Q) :
  calc_fuel_ash_mass_g profile fuel factor
  = Ok (UsageProfile.mileage_km profile / 100
        * UsageProfile.fuel_consumption_l_per_100km profile
        * FuelSpec.density_kg_per_l fuel
        * (FuelSpec.sulfur_ppm fuel * (1 # 1000000))
        * factor
        * 1000).
Proof. reflexivity. Qed.

(** C7.  [calc_oil_ash_mass_g] returns
    [(mileage_km / 1000 * oil_consumption_l_per_1000km) * density_kg_per_l
     * (sulfated_ash_pct / 100) * 1000]; for 10000 km, 0.5 l/1000 km,
    1.0 % ash and 0.85 kg/l that is 5 l of oil, 4.25 kg of oil and
    42.5 g of ash. *)
Theorem calc_oil_ash_mass_g_formula :
  (forall profile oil,
     calc_oil_ash_mass_g profile oil
     = Ok (UsageProfile.mileage_km profile / 1000
           * UsageProfile.oil_consumption_l_per_1000km profile
           * OilSpec.density_kg_per_l oil
           * (OilSpec.sulfated_ash_pct oil / 100)
           * 1000))
  /\ (exists l kg g,
        oil_liters sample_profile = Ok l /\ l == 5
        /\ oil_mass_kg sample_profile sample_oil = Ok kg /\ kg == 425 # 100
        /\ calc_oil_ash_mass_g sample_profile sample_oil = Ok g /\ g == 425 # 10).
Proof.
  split; [exact calc_oil_ash_mass_g_eq|].
  do 3 eexists. repeat split.
Qed.

(** C8.  With a non-zero capacity [calc_dpf_ash_fill] returns a
    dictionary with the keys [oil_ash_g], [fuel_ash_g], [total_ash_g],
    [dpf_capacity_ash_g], [fill_ratio] and [fill_percent], where
    [total_ash_g] is the sum of the oil and the fuel ash masses,
    [fill_ratio] is [total_ash_g / dpf_capacity_ash_g] and
    [fill_percent] is [fill_ratio * 100]. *)
Theorem calc_dpf_ash_fill_fields
    (profile : UsageProfile.t) (oil : OilSpec.t) (fuel : FuelSpec.t)
    (dpf_capacity_ash_g sulfur_to_ash_factor : Q) :
  ~ dpf_capacity_ash_g == 0 ->
  exists oil_ash_g fuel_ash_g d,
    calc_oil_ash_mass_g profile oil = Ok oil_ash_g
    /\ calc_fuel_ash_mass_g profile fuel sulfur_to_ash_factor = Ok fuel_ash_g
    /\ calc_dpf_ash_fill profile oil fuel dpf_capacity_ash_g sulfur_to_ash_factor = Ok d
    /\ dict_keys d
       = ["oil_ash_g"; "fuel_ash_g"; "total_ash_g"; "dpf_capacity_ash_g";
          "fill_ratio"; "fill_percent"]%string
    /\ dict_get "oil_ash_g" d = Some oil_ash_g
    /\ dict_get "fuel_ash_g" d = Some fuel_ash_g
    /\ dict_get "total_ash_g" d = Some (oil_ash_g + fuel_ash_g)
    /\ dict_get "dpf_capacity_ash_g" d = Some dpf_capacity_ash_g
    /\ dict_get "fill_ratio" d = Some ((oil_ash_g + fuel_ash_g) / dpf_capacity_ash_g)
    /\ dict_get "fill_percent" d
       = Some ((oil_ash_g + fuel_ash_g) / dpf_capacity_ash_g * 100).
Proof.
  intros Hcap. do 3 eexists.
  split; [apply calc_oil_ash_mass_g_eq|].
  split; [apply calc_fuel_ash_mass_g_eq|].
  unfold calc_dpf_ash_fill.
  rewrite calc_oil_ash_mass_g_eq, calc_fuel_ash_mass_g_eq. cbn [bind].
  rewrite (py_div_ok _ _ Hcap). cbn [bind].
  split; [reflexivity|]. repeat split.
Qed.

Lemma calc_dpf_ash_fill_fields_witness :
  exists oil_ash_g fuel_ash_g d,
    calc_oil_ash_mass_g sample_profile sample_oil = Ok oil_ash_g
    /\ calc_fuel_ash_mass_g sample_profile sample_fuel 3 = Ok fuel_ash_g
    /\ calc_dpf_ash_fill sample_profile sample_oil sample_fuel 120 3 = Ok d
    /\ dict_keys d
       = ["oil_ash_g"; "fuel_ash_g"; "total_ash_g"; "dpf_capacity_ash_g";
          "fill_ratio"; "fill_percent"]%string
    /\ dict_get "oil_ash_g" d = Some oil_ash_g
    /\ dict_get "fuel_ash_g" d = Some fuel_ash_g
    /\ dict_get "total_ash_g" d = Some (oil_ash_g + fuel_ash_g)
    /\ dict_get "dpf_capacity_ash_g" d = Some 120
    /\ dict_get "fill_ratio" d = Some ((oil_ash_g + fuel_ash_g) / 120)
    /\ dict_get "fill_percent" d = Some ((oil_ash_g + fuel_ash_g) / 120 * 100).
Proof.
  apply (calc_dpf_ash_fill_fields sample_profile sample_oil sample_fuel 120 3).
  discriminate.
Defined.



(** ** Failures *)

(** A negative capacity is no failure, neither in [predict_dpf_state]
    nor in [calc_dpf_ash_fill]: it is divided by like any other number. *)
Lemma negative_capacity_is_no_failure :
  dpf_capacity_units params_negative_capacity <= 0
  /\ (exists st,
        predict_dpf_state sample_inputs params_negative_capacity = Ok st
        /\ exists q, num_value (total_ratio st) = Some q /\ q < 0)
  /\ (exists d,
        calc_dpf_ash_fill sample_profile sample_oil sample_fuel (- (120)) 3 = Ok d
        /\ exists r, dict_get "fill_ratio" d = Some r /\ r < 0).
Proof.
  split; [discriminate|]. split.
  - eexists. split; [reflexivity|]. eexists. split; [reflexivity|]. reflexivity.
  - eexists. split; [reflexivity|]. eexists. split; [reflexivity|]. reflexivity.
Qed.

(** ** The lifecycle sweep *)

Lemma np_arange_ok (start stop step : Q) :
  ~ step == 0 ->
  np_arange start stop step
  = Ok (map (fun k => NpFloat (start + inject_Z (Z.of_nat k) * step))
            (seq 0 (Z.to_nat (Qceiling ((stop - start) / step))))).
Proof. intros H. unfold np_arange. now rewrite Qeq_bool_zero_false. Qed.

Lemma np_arange_zero_step (start stop step : Q) :
  step == 0 -> np_arange start stop step = Raise ZeroDivisionError.
Proof. intros H. unfold np_arange. now rewrite Qeq_bool_zero_true. Qed.

Lemma for_each_Forall2 {A B : Type} (f : A -> result B) (R : A -> B -> Prop) (xs : list A) :
  Forall (fun x => exists y, f x = Ok y /\ R x y) xs ->
  exists ys, for_each f xs = Ok ys /\ Forall2 R xs ys.
Proof.
  induction 1 as [| x xs (y & Ey & Hy) _ (ys & Eys & Hys)].
  - exists []. split; [reflexivity | constructor].
  - exists (y :: ys). cbn [for_each]. rewrite Ey. cbn [bind]. rewrite Eys.
    split; [reflexivity | now constructor].
Qed.

(** One turn of the loop, on a numpy mileage. *)
Lemma lifecycle_row_matches (base : DPFInputs.t) (p : DPFParams.t) (q : Q) :
  ~ low_speed_threshold_kmh p == 0 ->
  exists row,
    lifecycle_row base p (NpFloat q) = Ok row /\ row_matches base p (NpFloat q) row.
Proof.
  intros Hthr.
  destruct (predict_dpf_state_numpy_mileage (with_mileage_km (NpFloat q) base) p)
    as [st E]; [left; now exists q | exact Hthr |].
  unfold lifecycle_row. fold (with_mileage_km (NpFloat q) base).
  rewrite E. cbn [bind]. eexists. split; [reflexivity|].
  exists st. split; [exact E|]. repeat split.
Qed.

Lemma sweep_mileages_numpy (max_mileage_km step_km : Q) :
  Forall (fun m => exists q, m = NpFloat q) (sweep_mileages max_mileage_km step_km).
Proof.
  unfold sweep_mileages. apply Forall_forall. intros m Hm.
  apply in_map_iff in Hm. destruct Hm as (k & <- & _). eexists. reflexivity.
Qed.

(** The sweep returns one record per element of the [arange], in order,
    and each record holds what a direct call returns for that mileage. *)
Lemma simulate_vehicle_lifecycle_rows
    (base : DPFInputs.t) (max_mileage_km step_km : Q) (p : DPFParams.t) :
  ~ step_km == 0 ->
  ~ low_speed_threshold_kmh p == 0 ->
  exists rows,
    simulate_vehicle_lifecycle base max_mileage_km step_km p = Ok rows
    /\ Forall2 (row_matches base p) (sweep_mileages max_mileage_km step_km) rows.
Proof.
  intros Hstep Hthr. unfold simulate_vehicle_lifecycle.
  rewrite (np_arange_ok _ _ _ Hstep). cbn [bind].
  fold (sweep_mileages max_mileage_km step_km).
  apply for_each_Forall2.
  eapply Forall_impl; [|apply sweep_mileages_numpy].
  intros m [q ->]. now apply lifecycle_row_matches.
Qed.

Lemma rows_mileage_column (base : DPFInputs.t) (p : DPFParams.t)
    (ms : list num) (rows : list (dict num)) :
  Forall2 (row_matches base p) ms rows ->
  map (dict_get "mileage_km") rows = map Some ms.
Proof.
  induction 1 as [| m row ms rows (st & _ & _ & Hm & _) _ IH]; [reflexivity|].
  cbn [map]. now rewrite Hm, IH.
Qed.

(** The checkpoints of [np.arange] are numpy scalars. *)
Lemma np_arange_numpy (start stop step : Q) (ms : list num) :
  np_arange start stop step = Ok ms ->
  Forall (fun m => exists q, m = NpFloat q) ms.
Proof.
  unfold np_arange. destruct (Qeq_bool step 0); [discriminate|].
  intros E. injection E as <-. apply Forall_forall. intros m Hm.
  apply in_map_iff in Hm. destruct Hm as (k & <- & _). eexists. reflexivity.
Qed.

(** Given the checkpoints, a non-zero threshold gives one record per
    checkpoint, in order. *)
Lemma simulate_vehicle_lifecycle_of_checkpoints
    (base : DPFInputs.t) (max_mileage_km step_km : Q) (p : DPFParams.t) (ms : list num) :
  np_arange 0 (max_mileage_km + step_km) step_km = Ok ms ->
  ~ low_speed_threshold_kmh p == 0 ->
  exists rows,
    simulate_vehicle_lifecycle base max_mileage_km step_km p = Ok rows
    /\ Forall2 (row_matches base p) ms rows.
Proof.
  intros E Hthr. unfold simulate_vehicle_lifecycle. rewrite E. cbn [bind].
  apply for_each_Forall2.
  eapply Forall_impl; [|exact (np_arange_numpy _ _ _ _ E)].
  intros m [q ->]. now apply lifecycle_row_matches.
Qed.

(** Given at least one checkpoint, a zero threshold raises in the first
    turn of the loop. *)
Lemma simulate_vehicle_lifecycle_zero_threshold
    (base : DPFInputs.t) (max_mileage_km step_km : Q) (p : DPFParams.t)
    (m : num) (ms : list num) :
  np_arange 0 (max_mileage_km + step_km) step_km = Ok (m :: ms) ->
  low_speed_threshold_kmh p == 0 ->
  simulate_vehicle_lifecycle base max_mileage_km step_km p = Raise ZeroDivisionError.
Proof.
  intros E Hthr. unfold simulate_vehicle_lifecycle. rewrite E. cbn [bind for_each].
  unfold lifecycle_row. now rewrite (predict_dpf_state_zero_threshold _ p Hthr).
Qed.

(** In exact arithmetic, when the step is positive and divides the
    maximum [k] times, the mileages are [0, step, ..., k * step = max]. *)
Lemma sweep_mileages_exact (step_km : Q) (k : nat) :
  0 < step_km ->
  sweep_mileages (inject_Z (Z.of_nat k) * step_km) step_km
  = map (fun j => NpFloat (0 + inject_Z (Z.of_nat j) * step_km)) (seq 0 (S k)).
Proof.
  intros Hstep. unfold sweep_mileages.
  assert (E : (inject_Z (Z.of_nat k) * step_km + step_km - 0) / step_km
              == inject_Z (Z.of_nat k + 1)).
  { rewrite inject_Z_plus. field. lra. }
  rewrite E, Qceiling_Z.
  replace (Z.to_nat (Z.of_nat k + 1)) with (S k) by lia. reflexivity.
Qed.

(** The worked example: a maximum of 10000 with a step of 5000 gives the
    three records of the mileages 0, 5000 and 10000. *)
Lemma simulate_vehicle_lifecycle_example (base : DPFInputs.t) (p : DPFParams.t) :
  ~ low_speed_threshold_kmh p == 0 ->
  exists r0 r1 r2,
    simulate_vehicle_lifecycle base 10000 5000 p = Ok [r0; r1; r2]
    /\ row_matches base p (NpFloat 0) r0
    /\ row_matches base p (NpFloat 5000) r1
    /\ row_matches base p (NpFloat 10000) r2.
Proof.
  intros Hthr.
  destruct (simulate_vehicle_lifecycle_rows base 10000 5000 p) as (rows & E & H);
    [discriminate | exact Hthr |].
  change (sweep_mileages 10000 5000)
    with [NpFloat 0; NpFloat 5000; NpFloat 10000] in H.
  inversion H as [| ? r0 ? l0 H0 T0]; subst.
  inversion T0 as [| ? r1 ? l1 H1 T1]; subst.
  inversion T1 as [| ? r2 ? l2 H2 T2]; subst.
  inversion T2; subst.
  exists r0, r1, r2. repeat split; assumption.
Qed.

(** C1, at the failing input.  With a maximum of 12000 and a step of
    5000 the sweep returns four records, of the mileages 0, 5000, 10000
    and 15000: the last checkpoint lies beyond the maximum. *)
Theorem simulate_vehicle_lifecycle_overshoots (base : DPFInputs.t) :
  exists rows,
    simulate_vehicle_lifecycle base 12000 5000 DPFParams.default = Ok rows
    /\ map (dict_get "mileage_km") rows
       = [Some (NpFloat 0); Some (NpFloat 5000); Some (NpFloat 10000);
          Some (NpFloat 15000)]
    /\ 12000 < 15000.
Proof.
  destruct (simulate_vehicle_lifecycle_rows base 12000 5000 DPFParams.default)
    as (rows & E & H); [discriminate | discriminate |].
  exists rows. split; [exact E|]. split; [|reflexivity].
  now rewrite (rows_mileage_column _ _ _ _ H).
Qed.




(** In binary64 arithmetic the worked example of the oil ash mass is
    exact as well: 5.0 l, 4.25 kg, 42.5 g. *)
Lemma binary64_oil_ash_example :
  Binary64.oil_liters 10000 0.5 = 5%float
  /\ Binary64.oil_mass_kg 10000 0.5 0x1.b333333333333p-1 = 4.25%float
  /\ Binary64.calc_oil_ash_mass_g 10000 0.5 1 0x1.b333333333333p-1 = 42.5%float.
Proof. repeat split; vm_compute; reflexivity. Qed.

(** * Further properties of the rate model *)



(** A returning call had a non-zero threshold. *)
Lemma predict_dpf_state_ok_threshold (i : DPFInputs.t) (p : DPFParams.t) (st : DPFState.t) :
  predict_dpf_state i p = Ok st -> ~ low_speed_threshold_kmh p == 0.
Proof.
  intros E H. rewrite (predict_dpf_state_zero_threshold i p H) in E. discriminate.
Qed.

(** X3.  At or above the low-speed threshold there is no penalty: the
    delta is 0, the speed factor is 1 when the threshold is not zero,
    and any two such speeds give the same outcome. *)
Theorem predict_dpf_state_no_penalty_from_threshold
    (i : DPFInputs.t) (p : DPFParams.t) (s1 s2 : Q) :
  low_speed_threshold_kmh p <= s1 ->
  low_speed_threshold_kmh p <= s2 ->
  low_speed_delta (with_avg_speed_kmh s1 i) p = 0
  /\ (~ low_speed_threshold_kmh p == 0 ->
      exists v, speed_factor (with_avg_speed_kmh s1 i) p = Ok v /\ v == 1)
  /\ predict_dpf_state (with_avg_speed_kmh s1 i) p
     = predict_dpf_state (with_avg_speed_kmh s2 i) p.
Proof.
  intros H1 H2.
  assert (D1 : low_speed_delta (with_avg_speed_kmh s1 i) p = 0).
  { unfold low_speed_delta. cbn [with_avg_speed_kmh avg_speed_kmh].
    apply py_max_0_nonpos. lra. }
  assert (D2 : low_speed_delta (with_avg_speed_kmh s2 i) p = 0).
  { unfold low_speed_delta. cbn [with_avg_speed_kmh avg_speed_kmh].
    apply py_max_0_nonpos. lra. }
  split; [exact D1|]. split.
  - intros Hthr. rewrite (speed_factor_ok _ p Hthr), D1.
    eexists. split; [reflexivity|]. field. exact Hthr.
  - unfold predict_dpf_state, soot_rate, speed_factor. rewrite D1, D2. reflexivity.
Qed.

Lemma predict_dpf_state_no_penalty_from_threshold_witness :
  predict_dpf_state (with_avg_speed_kmh 60 sample_inputs) DPFParams.default
  = predict_dpf_state (with_avg_speed_kmh 130 sample_inputs) DPFParams.default.
Proof.
  apply (predict_dpf_state_no_penalty_from_threshold sample_inputs DPFParams.default 60 130);
    discriminate.
Defined.

(** X4.  The ash side looks at the mileage and the oil ash content only:
    two inputs that agree on these two fields get the same [ash_load]
    and [ash_ratio], whatever their speed, city ratio and fuel sulfur. *)
Theorem predict_dpf_state_ash_ignores_driving
    (i1 i2 : DPFInputs.t) (p : DPFParams.t) (st1 : DPFState.t) :
  mileage_km i1 = mileage_km i2 ->
  oil_ash_content_pct i1 = oil_ash_content_pct i2 ->
  predict_dpf_state i1 p = Ok st1 ->
  exists st2,
    predict_dpf_state i2 p = Ok st2
    /\ ash_load st2 = ash_load st1
    /\ ash_ratio st2 = ash_ratio st1.
Proof.
  intros Hm Ho E.
  pose proof (predict_dpf_state_ok_threshold _ _ _ E) as Hthr.
  revert E. unfold predict_dpf_state, km_thousands, ash_rate.
  rewrite !soot_rate_ok by exact Hthr. rewrite <- Hm, <- Ho.
  destruct (mileage_km i1) as [m | m |]; cbn [num_div bind];
    try change (Qeq_bool 1000 0) with false; cbn [bind num_mul num_lift2 num_div];
    destruct (Qeq_bool (dpf_capacity_units p) 0); cbn [bind];
    intros E; try discriminate; injection E as <-;
    eexists; (split; [reflexivity|]); split; reflexivity.
Qed.

Lemma predict_dpf_state_ash_ignores_driving_witness :
  exists st1 st2,
    predict_dpf_state sample_inputs DPFParams.default = Ok st1
    /\ predict_dpf_state
         (with_city_ratio 1 (with_avg_speed_kmh 90 sample_inputs)) DPFParams.default = Ok st2
    /\ ash_load st2 = ash_load st1
    /\ ash_ratio st2 = ash_ratio st1.
Proof.
  eexists.
  destruct (predict_dpf_state_ash_ignores_driving sample_inputs
              (with_city_ratio 1 (with_avg_speed_kmh 90 sample_inputs))
              DPFParams.default _ eq_refl eq_refl eq_refl) as (st2 & E2 & Ha & Hr).
  exists st2. split; [reflexivity|]. split; [exact E2|]. split; [exact Ha | exact Hr].
Defined.

(** X5.  The soot side does not look at the oil ash content: two inputs
    that agree on mileage, speed, city ratio and fuel sulfur get the
    same [soot_load] and [soot_ratio]. *)
Theorem predict_dpf_state_soot_ignores_oil
    (i1 i2 : DPFInputs.t) (p : DPFParams.t) (st1 : DPFState.t) :
  mileage_km i1 = mileage_km i2 ->
  avg_speed_kmh i1 = avg_speed_kmh i2 ->
  city_ratio i1 = city_ratio i2 ->
  fuel_sulfur_ppm i1 = fuel_sulfur_ppm i2 ->
  predict_dpf_state i1 p = Ok st1 ->
  exists st2,
    predict_dpf_state i2 p = Ok st2
    /\ soot_load st2 = soot_load st1
    /\ soot_ratio st2 = soot_ratio st1.
Proof.
  intros Hm Hs Hc Hf E.
  pose proof (predict_dpf_state_ok_threshold _ _ _ E) as Hthr.
  assert (Hr : soot_rate_value i2 p = soot_rate_value i1 p).
  { unfold soot_rate_value, low_speed_delta. now rewrite Hs, Hc, Hf. }
  revert E. unfold predict_dpf_state, km_thousands.
  rewrite !soot_rate_ok by exact Hthr. rewrite Hr, <- Hm.
  destruct (mileage_km i1) as [m | m |]; cbn [num_div bind];
    try change (Qeq_bool 1000 0) with false; cbn [bind num_mul num_lift2 num_div];
    destruct (Qeq_bool (dpf_capacity_units p) 0); cbn [bind];
    intros E; try discriminate; injection E as <-;
    eexists; (split; [reflexivity|]); split; reflexivity.
Qed.

Lemma predict_dpf_state_soot_ignores_oil_witness :
  exists st1 st2,
    predict_dpf_state sample_inputs DPFParams.default = Ok st1
    /\ predict_dpf_state
         (DPFInputs.mk (PyFloat 10000) 40 (1 # 2) 3 10 400) DPFParams.default = Ok st2
    /\ soot_load st2 = soot_load st1
    /\ soot_ratio st2 = soot_ratio st1.
Proof.
  eexists.
  destruct (predict_dpf_state_soot_ignores_oil sample_inputs
              (DPFInputs.mk (PyFloat 10000) 40 (1 # 2) 3 10 400)
              DPFParams.default _ eq_refl eq_refl eq_refl eq_refl eq_refl)
    as (st2 & E2 & Ha & Hr).
  exists st2. split; [reflexivity|]. split; [exact E2|]. split; [exact Ha | exact Hr].
Defined.

Lemma low_speed_delta_bounds (i : DPFInputs.t) (p : DPFParams.t) :
  0 <= avg_speed_kmh i ->
  0 <= low_speed_threshold_kmh p ->
  0 <= low_speed_delta i p /\ low_speed_delta i p <= low_speed_threshold_kmh p.
Proof.
  intros Hs Ht. unfold low_speed_delta. split; [apply py_max_0_nonneg|].
  unfold py_max.
  destruct (Qlt_le_dec 0 (low_speed_threshold_kmh p - avg_speed_kmh i)); lra.
Qed.

Lemma Qdiv_le_1 (x d : Q) : 0 < d -> x <= d -> x / d <= 1.
Proof.
  intros Hd H. apply Qle_shift_div_r; [exact Hd | lra].
Qed.

(** X6.  For a non-negative speed, a positive threshold and a
    non-negative low-speed sensitivity, the speed factor lies between 1
    and [1 + low_speed_sensitivity]; at speed 0 it is exactly
    [1 + low_speed_sensitivity]. *)
Theorem speed_factor_bounds (i : DPFInputs.t) (p : DPFParams.t) :
  0 <= avg_speed_kmh i ->
  0 < low_speed_threshold_kmh p ->
  0 <= low_speed_sensitivity p ->
  exists v,
    speed_factor i p = Ok v
    /\ 1 <= v
    /\ v <= 1 + low_speed_sensitivity p
    /\ (avg_speed_kmh i == 0 -> v == 1 + low_speed_sensitivity p).
Proof.
  intros Hs Ht Hl.
  assert (Hthr : ~ low_speed_threshold_kmh p == 0) by lra.
  destruct (low_speed_delta_bounds i p Hs) as [Hd0 Hd1]; [lra|].
  rewrite (speed_factor_ok i p Hthr). eexists. split; [reflexivity|].
  pose proof (Qdiv_nonneg _ _ Hd0 Ht) as Hq0.
  pose proof (Qdiv_le_1 _ _ Ht Hd1) as Hq1.
  set (q := low_speed_delta i p / low_speed_threshold_kmh p) in *.
  assert (H0 : 0 <= low_speed_sensitivity p * q) by now apply Qmult_le_0_compat.
  assert (H1 : low_speed_sensitivity p * q <= low_speed_sensitivity p * 1)
    by now apply Qmult_le_compat_nonneg_l.
  split; [lra|]. split; [lra|].
  intros Hz. subst q. unfold low_speed_delta.
  rewrite py_max_0_pos by lra. rewrite Hz. field. exact Hthr.
Qed.

Lemma speed_factor_bounds_witness :
  exists v,
    speed_factor sample_inputs DPFParams.default = Ok v
    /\ 1 <= v
    /\ v <= 1 + 1
    /\ (40 == 0 -> v == 1 + 1).
Proof.
  apply (speed_factor_bounds sample_inputs DPFParams.default);
    [discriminate | reflexivity | discriminate].
Defined.




(** X8.  On a numpy mileage (as the sweep passes it) a zero capacity
    raises nothing: with a threshold that is not zero
    [predict_dpf_state] returns, and [soot_ratio], [ash_ratio] and
    [total_ratio] are infinities or nan. *)
Theorem predict_dpf_state_numpy_zero_capacity
    (i : Machine.DPFInputs) (p : Machine.DPFParams) (m : spec_float) :
  Machine.mileage_km i = Machine.Numpy m ->
  Machine.is_zero (Machine.low_speed_threshold_kmh p) = false ->
  Machine.is_zero (Machine.dpf_capacity_units p) = true ->
  exists st,
    Machine.predict_dpf_state i p = Ok st
    /\ Machine.is_finite (Machine.float_of (Machine.soot_ratio st)) = false
    /\ Machine.is_finite (Machine.float_of (Machine.ash_ratio st)) = false
    /\ Machine.is_finite (Machine.float_of (Machine.total_ratio st)) = false.
Proof.
  intros Hm Hthr Hcap.
  unfold Machine.predict_dpf_state, Machine.km_thousands, Machine.soot_rate,
    Machine.speed_factor, Machine.sulfur_factor, Machine.py_div.
  rewrite Hm, Hthr. change (Machine.is_zero Machine.literal_1000) with false.
  cbn [Machine.value_div bind].
  unfold Machine.soot_factor_city, Machine.np_clip.
  cbn [Machine.lift2 Machine.float_of Machine.value_div bind].
  eexists. split; [reflexivity|].
  cbn [Machine.soot_ratio Machine.ash_ratio Machine.total_ratio Machine.float_of
       Machine.lift2].
  repeat split; [now apply div_by_zero_not_finite | now apply div_by_zero_not_finite |].
  apply add_not_finite; now apply div_by_zero_not_finite.
Qed.

Lemma predict_dpf_state_numpy_zero_capacity_witness :
  exists st,
    Machine.predict_dpf_state Machine.sweep_inputs Machine.params_zero_capacity = Ok st
    /\ Machine.is_finite (Machine.float_of (Machine.soot_ratio st)) = false
    /\ Machine.is_finite (Machine.float_of (Machine.ash_ratio st)) = false
    /\ Machine.is_finite (Machine.float_of (Machine.total_ratio st)) = false.
Proof.
  apply (predict_dpf_state_numpy_zero_capacity Machine.sweep_inputs
           Machine.params_zero_capacity Machine.literal_10000); reflexivity.
Defined.




(** * Further properties of the lifecycle sweep *)

Lemma Forall2_nth_error_r {A B : Type} (R : A -> B -> Prop) (xs : list A) (ys : list B) :
  Forall2 R xs ys ->
  forall j y, nth_error ys j = Some y -> exists x, nth_error xs j = Some x /\ R x y.
Proof.
  induction 1 as [| x y xs ys Hxy _ IH]; intros j y' Hj.
  - destruct j; discriminate.
  - destruct j as [| j]; cbn in Hj.
    + injection Hj as <-. exists x. split; [reflexivity | exact Hxy].
    + now apply IH.
Qed.

Lemma nth_error_map_seq {A : Type} (f : nat -> A) (n s j : nat) (x : A) :
  nth_error (map f (seq s n)) j = Some x -> x = f (s + j)%nat /\ (j < n)%nat.
Proof.
  revert s j. induction n as [| n IH]; intros s j H; cbn in H.
  - destruct j; discriminate.
  - destruct j as [| j]; cbn in H.
    + injection H as <-. rewrite Nat.add_0_r. split; [reflexivity | lia].
    + destruct (IH (S s) j H) as [-> Hlt]. split; [f_equal; lia | lia].
Qed.

(** The frame has the mileage column of the [arange]. *)
Lemma simulate_vehicle_lifecycle_mileage_column
    (base : DPFInputs.t) (max_mileage_km step_km : Q) (p : DPFParams.t) :
  ~ step_km == 0 ->
  ~ low_speed_threshold_kmh p == 0 ->
  exists rows,
    simulate_vehicle_lifecycle base max_mileage_km step_km p = Ok rows
    /\ map (dict_get "mileage_km") rows
       = map Some (sweep_mileages max_mileage_km step_km).
Proof.
  intros Hstep Hthr.
  destruct (simulate_vehicle_lifecycle_rows base max_mileage_km step_km p Hstep Hthr)
    as (rows & E & H).
  exists rows. split; [exact E|]. exact (rows_mileage_column _ _ _ _ H).
Qed.

(** X10.  With a non-zero step and a non-zero threshold the sweep
    returns a frame whose row of index [j] is the record of mileage
    [0 + j * step_km]: the eleven keys in order, the input fields with
    the mileage overridden, and the five state fields of a direct call
    of [predict_dpf_state]. *)
Theorem simulate_vehicle_lifecycle_row_per_checkpoint
    (base : DPFInputs.t) (max_mileage_km step_km : Q) (p : DPFParams.t) :
  ~ step_km == 0 ->
  ~ low_speed_threshold_kmh p == 0 ->
  exists rows,
    simulate_vehicle_lifecycle base max_mileage_km step_km p = Ok rows
    /\ forall j row,
         nth_error rows j = Some row ->
         row_matches base p (NpFloat (0 + inject_Z (Z.of_nat j) * step_km)) row.
Proof.
  intros Hstep Hthr.
  destruct (simulate_vehicle_lifecycle_rows base max_mileage_km step_km p Hstep Hthr)
    as (rows & E & H).
  exists rows. split; [exact E|].
  intros j row Hj.
  destruct (Forall2_nth_error_r _ _ _ H j row Hj) as (m & Hm & Hrow).
  unfold sweep_mileages in Hm. apply nth_error_map_seq in Hm.
  destruct Hm as [-> _]. exact Hrow.
Qed.

Lemma simulate_vehicle_lifecycle_row_per_checkpoint_witness :
  exists rows,
    simulate_vehicle_lifecycle sample_inputs 12000 5000 DPFParams.default = Ok rows
    /\ forall j row,
         nth_error rows j = Some row ->
         row_matches sample_inputs DPFParams.default
           (NpFloat (0 + inject_Z (Z.of_nat j) * 5000)) row.
Proof.
  apply (simulate_vehicle_lifecycle_row_per_checkpoint sample_inputs 12000 5000
           DPFParams.default); discriminate.
Defined.

(** X13.  The outcome of the sweep, given its checkpoints.  A zero step
    fails in [np.arange], whatever the parameters are.  When
    [np.arange] returns no checkpoint the frame is empty and nothing is
    computed, not even with a zero threshold; when it returns at least
    one, a zero threshold raises [ZeroDivisionError] (no partial
    frame), and a non-zero threshold gives one record per checkpoint, a
    zero capacity included. *)
Theorem simulate_vehicle_lifecycle_outcome
    (base : DPFInputs.t) (max_mileage_km step_km : Q) (p : DPFParams.t) :
  (step_km == 0 ->
   simulate_vehicle_lifecycle base max_mileage_km step_km p = Raise ZeroDivisionError)
  /\ (np_arange 0 (max_mileage_km + step_km) step_km = Ok [] ->
      simulate_vehicle_lifecycle base max_mileage_km step_km p = Ok [])
  /\ (forall m ms,
        np_arange 0 (max_mileage_km + step_km) step_km = Ok (m :: ms) ->
        low_speed_threshold_kmh p == 0 ->
        simulate_vehicle_lifecycle base max_mileage_km step_km p
        = Raise ZeroDivisionError)
  /\ (forall ms,
        np_arange 0 (max_mileage_km + step_km) step_km = Ok ms ->
        ~ low_speed_threshold_kmh p == 0 ->
        exists rows,
          simulate_vehicle_lifecycle base max_mileage_km step_km p = Ok rows
          /\ Forall2 (row_matches base p) ms rows).
Proof.
  split; [|split; [|split]].
  - intros Hstep. unfold simulate_vehicle_lifecycle.
    now rewrite (np_arange_zero_step _ _ _ Hstep).
  - intros E. unfold simulate_vehicle_lifecycle. now rewrite E.
  - intros m ms E Hthr.
    exact (simulate_vehicle_lifecycle_zero_threshold _ _ _ _ _ _ E Hthr).
  - intros ms E Hthr.
    exact (simulate_vehicle_lifecycle_of_checkpoints _ _ _ _ _ E Hthr).
Qed.

Lemma simulate_vehicle_lifecycle_outcome_witness :
  simulate_vehicle_lifecycle sample_inputs 10000 0 DPFParams.default
  = Raise ZeroDivisionError
  /\ simulate_vehicle_lifecycle sample_inputs (- (5000)) 5000
       (DPFParams.mk 100 1 (1 # 10) 1 0 1 (3 # 2)) = Ok []
  /\ simulate_vehicle_lifecycle sample_inputs 10000 5000
       (DPFParams.mk 100 1 (1 # 10) 1 0 1 (3 # 2)) = Raise ZeroDivisionError.
Proof.
  split; [|split].
  - apply (simulate_vehicle_lifecycle_outcome sample_inputs 10000 0 DPFParams.default).
    reflexivity.
  - apply (simulate_vehicle_lifecycle_outcome sample_inputs (- (5000)) 5000
             (DPFParams.mk 100 1 (1 # 10) 1 0 1 (3 # 2))).
    reflexivity.
  - destruct (simulate_vehicle_lifecycle_outcome sample_inputs 10000 5000
                (DPFParams.mk 100 1 (1 # 10) 1 0 1 (3 # 2))) as (_ & _ & H & _).
    apply (H (NpFloat (0 + inject_Z (Z.of_nat 0) * 5000))
             (map (fun i => NpFloat (0 + inject_Z (Z.of_nat i) * 5000)) (seq 1 2)));
      reflexivity.
Defined.



(** X15.  Called with its default maximum (300000), step (5000) and
    parameters, the sweep returns 61 rows, of the mileages
    0, 5000, ..., 300000. *)
Theorem simulate_vehicle_lifecycle_defaults (base : DPFInputs.t) :
  exists rows,
    simulate_vehicle_lifecycle base default_max_mileage_km default_step_km
      DPFParams.default = Ok rows
    /\ List.length rows = 61%nat
    /\ map (dict_get "mileage_km") rows
       = map (fun j => Some (NpFloat (inject_Z (Z.of_nat j * 5000)))) (seq 0 61).
Proof.
  destruct (simulate_vehicle_lifecycle_mileage_column base
              (inject_Z (Z.of_nat 60) * 5000) 5000 DPFParams.default)
    as (rows & E & H); [discriminate | discriminate |].
  rewrite (sweep_mileages_exact 5000 60 eq_refl), map_map in H.
  exists rows. split; [exact E|]. split; [|exact H].
  rewrite <- (length_map (dict_get "mileage_km") rows), H, length_map, length_seq.
  reflexivity.
Qed.




(** * Further properties of the mass-balance model *)

Lemma calc_dpf_ash_fill_eq
    (profile : UsageProfile.t) (oil : OilSpec.t) (fuel : FuelSpec.t)
    (capacity factor : Q) (o f : Q) :
  calc_oil_ash_mass_g profile oil = Ok o ->
  calc_fuel_ash_mass_g profile fuel factor = Ok f ->
  ~ capacity == 0 ->
  calc_dpf_ash_fill profile oil fuel capacity factor
  = Ok [ ("oil_ash_g"%string, o);
         ("fuel_ash_g"%string, f);
         ("total_ash_g"%string, o + f);
         ("dpf_capacity_ash_g"%string, capacity);
         ("fill_ratio"%string, (o + f) / capacity);
         ("fill_percent"%string, (o + f) / capacity * 100) ].
Proof.
  intros Ho Hf Hcap. unfold calc_dpf_ash_fill. rewrite Ho, Hf. cbn [bind].
  now rewrite (py_div_ok _ _ Hcap).
Qed.

(** X19.  A new filter is empty: with a mileage of 0 and a non-zero
    capacity, both ash masses, their total, [fill_ratio] and
    [fill_percent] are 0. *)
Theorem calc_dpf_ash_fill_zero_mileage
    (profile : UsageProfile.t) (oil : OilSpec.t) (fuel : FuelSpec.t)
    (capacity factor : Q) :
  UsageProfile.mileage_km profile == 0 ->
  ~ capacity == 0 ->
  exists d o f t r pc,
    calc_dpf_ash_fill profile oil fuel capacity factor = Ok d
    /\ dict_get "oil_ash_g" d = Some o /\ o == 0
    /\ dict_get "fuel_ash_g" d = Some f /\ f == 0
    /\ dict_get "total_ash_g" d = Some t /\ t == 0
    /\ dict_get "fill_ratio" d = Some r /\ r == 0
    /\ dict_get "fill_percent" d = Some pc /\ pc == 0.
Proof.
  intros Hm Hcap.
  rewrite (calc_dpf_ash_fill_eq profile oil fuel capacity factor _ _
             (calc_oil_ash_mass_g_eq profile oil)
             (calc_fuel_ash_mass_g_eq profile fuel factor) Hcap).
  do 6 eexists. split; [reflexivity|].
  repeat split; rewrite Hm; field; exact Hcap.
Qed.

Lemma calc_dpf_ash_fill_zero_mileage_witness :
  exists d o f t r pc,
    calc_dpf_ash_fill (UsageProfile.mk 0 (1 # 2) 6) sample_oil sample_fuel 120 3 = Ok d
    /\ dict_get "oil_ash_g" d = Some o /\ o == 0
    /\ dict_get "fuel_ash_g" d = Some f /\ f == 0
    /\ dict_get "total_ash_g" d = Some t /\ t == 0
    /\ dict_get "fill_ratio" d = Some r /\ r == 0
    /\ dict_get "fill_percent" d = Some pc /\ pc == 0.
Proof.
  apply (calc_dpf_ash_fill_zero_mileage (UsageProfile.mk 0 (1 # 2) 6)
           sample_oil sample_fuel 120 3); reflexivity || discriminate.
Defined.

(** X20.  For a positive capacity the filter is reported full
    ([fill_ratio >= 1], [fill_percent >= 100]) exactly when the total
    ash reaches the capacity. *)
Theorem calc_dpf_ash_fill_full_iff
    (profile : UsageProfile.t) (oil : OilSpec.t) (fuel : FuelSpec.t)
    (capacity factor : Q) :
  0 < capacity ->
  exists d t r pc,
    calc_dpf_ash_fill profile oil fuel capacity factor = Ok d
    /\ dict_get "total_ash_g" d = Some t
    /\ dict_get "fill_ratio" d = Some r
    /\ dict_get "fill_percent" d = Some pc
    /\ (1 <= r <-> capacity <= t)
    /\ (100 <= pc <-> capacity <= t).
Proof.
  intros Hcap.
  assert (Hcap0 : ~ capacity == 0) by lra.
  rewrite (calc_dpf_ash_fill_eq profile oil fuel capacity factor _ _
             (calc_oil_ash_mass_g_eq profile oil)
             (calc_fuel_ash_mass_g_eq profile fuel factor) Hcap0).
  do 4 eexists. split; [reflexivity|]. do 3 (split; [reflexivity|]).
  set (t := _ + _).
  assert (Ht : t / capacity * capacity == t) by (field; exact Hcap0).
  assert (Hiff : 1 <= t / capacity <-> capacity <= t).
  { split; intros H.
    - rewrite <- Ht. rewrite <- (Qmult_1_l capacity) at 1.
      apply Qmult_le_compat_r; [exact H | lra].
    - apply Qle_shift_div_l; [exact Hcap | lra]. }
  split; [exact Hiff|].
  rewrite <- Hiff. split; intros H; lra.
Qed.

Lemma calc_dpf_ash_fill_full_iff_witness :
  exists d t r pc,
    calc_dpf_ash_fill sample_profile sample_oil sample_fuel 120 3 = Ok d
    /\ dict_get "total_ash_g" d = Some t
    /\ dict_get "fill_ratio" d = Some r
    /\ dict_get "fill_percent" d = Some pc
    /\ (1 <= r <-> 120 <= t)
    /\ (100 <= pc <-> 120 <= t).
Proof.
  apply (calc_dpf_ash_fill_full_iff sample_profile sample_oil sample_fuel 120 3).
  reflexivity.
Defined.

(** X22.  The display names carry no weight: two oils and two fuels
    with the same numbers give the same outcome of [calc_dpf_ash_fill]. *)
Theorem calc_dpf_ash_fill_ignores_names
    (profile : UsageProfile.t) (oil1 oil2 : OilSpec.t) (fuel1 fuel2 : FuelSpec.t)
    (capacity factor : Q) :
  OilSpec.sulfated_ash_pct oil1 = OilSpec.sulfated_ash_pct oil2 ->
  OilSpec.density_kg_per_l oil1 = OilSpec.density_kg_per_l oil2 ->
  FuelSpec.sulfur_ppm fuel1 = FuelSpec.sulfur_ppm fuel2 ->
  FuelSpec.density_kg_per_l fuel1 = FuelSpec.density_kg_per_l fuel2 ->
  calc_dpf_ash_fill profile oil1 fuel1 capacity factor
  = calc_dpf_ash_fill profile oil2 fuel2 capacity factor.
Proof.
  intros H1 H2 H3 H4. unfold calc_dpf_ash_fill.
  rewrite !calc_oil_ash_mass_g_eq, !calc_fuel_ash_mass_g_eq.
  now rewrite H1, H2, H3, H4.
Qed.

Lemma calc_dpf_ash_fill_ignores_names_witness :
  calc_dpf_ash_fill sample_profile sample_oil sample_fuel 120 3
  = calc_dpf_ash_fill sample_profile
      (OilSpec.mk "0W-20" 1 (85 # 100)) (FuelSpec.mk "EN 590" 10 (83 # 100)) 120 3.
Proof.
  apply calc_dpf_ash_fill_ignores_names; reflexivity.
Defined.

(** * The reference catalogs *)

Section DictFacts.
Context {V : Type}.

Lemma dict_get_set_same (k : string) (v : V) (d : dict V) :
  dict_get k (dict_set k v d) = Some v.
Proof.
  induction d as [| [k' v'] d IH]; cbn.
  - now rewrite String.eqb_refl.
  - destruct (String.eqb k k') eqn:E; cbn; rewrite ?String.eqb_refl, ?E; auto.
Qed.

Lemma dict_get_set_other (k k' : string) (v : V) (d : dict V) :
  String.eqb k k' = false ->
  dict_get k (dict_set k' v d) = dict_get k d.
Proof.
  intros Hk. induction d as [| [k2 v2] d IH]; cbn.
  - now rewrite Hk.
  - destruct (String.eqb k' k2) eqn:E; cbn.
    + apply String.eqb_eq in E. subst k2. now rewrite Hk.
    + now rewrite IH.
Qed.

Lemma dict_get_set (k k' : string) (v : V) (d : dict V) :
  dict_get k (dict_set k' v d) = if String.eqb k k' then Some v else dict_get k d.
Proof.
  destruct (String.eqb k k') eqn:E.
  - apply String.eqb_eq in E. subst. apply dict_get_set_same.
  - now apply dict_get_set_other.
Qed.

Lemma dict_set_fresh (k : string) (v : V) (d : dict V) :
  ~ In k (dict_keys d) -> dict_set k v d = d ++ [(k, v)].
Proof.
  induction d as [| [k' v'] d IH]; cbn; intros H; [reflexivity|].
  destruct (String.eqb k k') eqn:E.
  - apply String.eqb_eq in E. subst. exfalso. apply H. now left.
  - f_equal. apply IH. intros Hin. apply H. now right.
Qed.

Lemma dict_keys_set_in (k k' : string) (v : V) (d : dict V) :
  In k' (dict_keys (dict_set k v d)) <-> k' = k \/ In k' (dict_keys d).
Proof.
  induction d as [| [k2 v2] d IH]; cbn.
  - intuition.
  - destruct (String.eqb k k2) eqn:E; cbn.
    + apply String.eqb_eq in E. subst k2. intuition.
    + rewrite IH. intuition.
Qed.

Lemma dict_keys_set_NoDup (k : string) (v : V) (d : dict V) :
  NoDup (dict_keys d) -> NoDup (dict_keys (dict_set k v d)).
Proof.
  induction d as [| [k2 v2] d IH]; cbn; intros H.
  - constructor; [intros [] | constructor].
  - inversion H as [| ? ? Hnotin Hnd]; subst.
    destruct (String.eqb k k2) eqn:E; cbn.
    + apply String.eqb_eq in E. subst k2. now constructor.
    + constructor; [|now apply IH].
      intros Hin. apply dict_keys_set_in in Hin. destruct Hin as [-> | Hin].
      * now rewrite String.eqb_refl in E.
      * contradiction.
Qed.
End DictFacts.

(** A catalog built row by row, as both loaders do. *)
Section CatalogFacts.
Context {R V : Type}.
Variable key : R -> string.
Variable val : R -> V.

Local Abbreviation build rows :=
  (fold_left (fun d row => dict_set (key row) (val row) d) rows []).

Lemma build_snoc (rows : list R) (row : R) :
  build (rows ++ [row]) = dict_set (key row) (val row) (build rows).
Proof. now rewrite fold_left_app. Qed.

Lemma build_get (rows : list R) (k : string) :
  dict_get k (build rows)
  = option_map val (find (fun row => String.eqb k (key row)) (rev rows)).
Proof.
  induction rows as [| row rows IH] using rev_ind; [reflexivity|].
  rewrite build_snoc, dict_get_set, rev_app_distr. cbn [rev app find].
  destruct (String.eqb k (key row)); [reflexivity | exact IH].
Qed.

Lemma build_keys_in (rows : list R) (k : string) :
  In k (dict_keys (build rows)) <-> In k (map key rows).
Proof.
  induction rows as [| row rows IH] using rev_ind; [reflexivity|].
  rewrite build_snoc, dict_keys_set_in, IH, map_app, in_app_iff. cbn. intuition.
Qed.

Lemma build_keys_NoDup (rows : list R) : NoDup (dict_keys (build rows)).
Proof.
  induction rows as [| row rows IH] using rev_ind; [constructor|].
  rewrite build_snoc. now apply dict_keys_set_NoDup.
Qed.

Lemma build_distinct (rows : list R) :
  NoDup (map key rows) ->
  build rows = map (fun row => (key row, val row)) rows.
Proof.
  induction rows as [| row rows IH] using rev_ind; [reflexivity|].
  rewrite map_app. intros H. apply NoDup_remove in H. cbn [map app] in H.
  rewrite app_nil_r in H. destruct H as [Hnd Hnotin].
  rewrite build_snoc, dict_set_fresh, IH, map_app by
    (try rewrite build_keys_in; assumption).
  reflexivity.
Qed.
End CatalogFacts.

(** X23.  Both loaders keep, for an identifier, the specification of the
    last row of the file that carries it: looking an identifier up in
    the catalog gives what the last such row gives, and nothing when no
    row carries it. *)
Theorem load_csv_last_row_wins
    (read_oils_csv : string -> option (list OilRow.t))
    (read_fuels_csv : string -> option (list FuelRow.t)) (filename : string) :
  (forall df, read_oils_csv filename = Some df ->
     exists oils,
       load_oils_csv read_oils_csv filename = Some oils
       /\ forall k,
            dict_get k oils
            = option_map oil_spec_of_row
                (find (fun row => String.eqb k (OilRow.oil_id row)) (rev df)))
  /\ (forall df, read_fuels_csv filename = Some df ->
        exists fuels,
          load_fuels_csv read_fuels_csv filename = Some fuels
          /\ forall k,
               dict_get k fuels
               = option_map fuel_spec_of_row
                   (find (fun row => String.eqb k (FuelRow.fuel_id row)) (rev df))).
Proof.
  split; intros df E.
  - unfold load_oils_csv. rewrite E. eexists. split; [reflexivity|].
    intros k. apply build_get.
  - unfold load_fuels_csv. rewrite E. eexists. split; [reflexivity|].
    intros k. apply build_get.
Qed.

Lemma load_csv_last_row_wins_witness :
  exists oils,
    load_oils_csv
      (fun _ => Some [ OilRow.mk "A" "first" 1 (85 # 100);
                       OilRow.mk "B" "other" (1 # 2) (86 # 100);
                       OilRow.mk "A" "second" (8 # 10) (84 # 100) ]) "oils.csv"
    = Some oils
    /\ dict_get "A" oils = Some (OilSpec.mk "second" (8 # 10) (84 # 100))
    /\ dict_get "C" oils = None.
Proof.
  destruct (load_csv_last_row_wins
              (fun _ => Some [ OilRow.mk "A" "first" 1 (85 # 100);
                               OilRow.mk "B" "other" (1 # 2) (86 # 100);
                               OilRow.mk "A" "second" (8 # 10) (84 # 100) ])
              (fun _ => None) "oils.csv") as [H _].
  destruct (H _ eq_refl) as (oils & E & Hget).
  exists oils. split; [exact E|]. split; [exact (Hget "A"%string) | exact (Hget "C"%string)].
Defined.

(** X24.  The catalogs have no duplicate key: their keys are exactly the
    identifiers that occur in the file, each once; when the file has no
    repeated identifier, the catalog lists its rows one for one, in the
    order of the file. *)
Theorem load_csv_keys
    (read_oils_csv : string -> option (list OilRow.t))
    (read_fuels_csv : string -> option (list FuelRow.t)) (filename : string) :
  (forall df, read_oils_csv filename = Some df ->
     exists oils,
       load_oils_csv read_oils_csv filename = Some oils
       /\ NoDup (dict_keys oils)
       /\ (forall k, In k (dict_keys oils) <-> In k (map OilRow.oil_id df))
       /\ (NoDup (map OilRow.oil_id df) ->
           oils = map (fun row => (OilRow.oil_id row, oil_spec_of_row row)) df))
  /\ (forall df, read_fuels_csv filename = Some df ->
        exists fuels,
          load_fuels_csv read_fuels_csv filename = Some fuels
          /\ NoDup (dict_keys fuels)
          /\ (forall k, In k (dict_keys fuels) <-> In k (map FuelRow.fuel_id df))
          /\ (NoDup (map FuelRow.fuel_id df) ->
              fuels = map (fun row => (FuelRow.fuel_id row, fuel_spec_of_row row)) df)).
Proof.
  split; intros df E.
  - unfold load_oils_csv. rewrite E. eexists. split; [reflexivity|].
    split; [apply build_keys_NoDup|]. split; [intros k; apply build_keys_in|].
    apply build_distinct.
  - unfold load_fuels_csv. rewrite E. eexists. split; [reflexivity|].
    split; [apply build_keys_NoDup|]. split; [intros k; apply build_keys_in|].
    apply build_distinct.
Qed.

Lemma load_csv_keys_witness :
  exists fuels,
    load_fuels_csv
      (fun _ => Some [ FuelRow.mk "B7" "diesel" 10 (83 # 100);
                       FuelRow.mk "HVO" "renewable" 1 (78 # 100);
                       FuelRow.mk "B7" "diesel again" 8 (83 # 100) ]) "fuels.csv"
    = Some fuels
    /\ NoDup (dict_keys fuels)
    /\ dict_keys fuels = ["B7"; "HVO"]%string.
Proof.
  destruct (load_csv_keys (fun _ => None)
              (fun _ => Some [ FuelRow.mk "B7" "diesel" 10 (83 # 100);
                               FuelRow.mk "HVO" "renewable" 1 (78 # 100);
                               FuelRow.mk "B7" "diesel again" 8 (83 # 100) ])
              "fuels.csv") as [_ H].
  destruct (H _ eq_refl) as (fuels & E & Hnd & _).
  exists fuels. split; [exact E|]. split; [exact Hnd|].
  injection E as <-. reflexivity.
Defined.
